(** * Plant dashboard: the telemetry engine of [src/App.js]

    A shallow embedding of the data-handling part of the [App] component:
    the refresh cycle [fetchData], the alert rules [checkAlerts], the
    statistics [calculateStats], the trend classifier [getTrend] and the
    CSV export [exportToCSV], together with the fragment of the JavaScript
    run-time they rest on (numbers, coercions, [Array.prototype.sort] and
    [join], [Number.prototype.toFixed]).

    JavaScript numbers are IEEE 754 binary64 values: they are modelled by
    the primitive floats of the kernel, so [<], [+], [-] and [/] are the
    operations the engine performs, NaN and the infinities included. *)

From Stdlib Require Import ZArith List String Ascii Bool Lia Floats Uint63.
From Stdlib Require Import DecimalString Sorting.Sorted Sorting.Permutation.
Import ListNotations.

#[local] Set Warnings "-inexact-float".
#[local] Open Scope string_scope.
#[local] Open Scope Z_scope.

(* ================================================================== *)
(** * The JavaScript run-time used by the component *)
(* ================================================================== *)

Module JS.

(** ** Strings *)

(** [Array.prototype.join] on an array of strings. *)
Definition join (sep : string) (parts : list string) : string :=
  String.concat sep parts.

(** [String.prototype.split] with a one-character separator: the pieces
    between the occurrences of [sep]; a string without [sep] is one piece. *)
Fixpoint split (sep : ascii) (s : string) : list string :=
  match s with
  | EmptyString => [ EmptyString ]
  | String c rest =>
      if Ascii.eqb c sep then EmptyString :: split sep rest
      else match split sep rest with
           | piece :: pieces => String c piece :: pieces
           | [] => [ String c EmptyString ]
           end
  end.

(** [c] does not occur in [s]. *)
Fixpoint free_of (c : ascii) (s : string) : bool :=
  match s with
  | EmptyString => true
  | String a rest => negb (Ascii.eqb a c) && free_of c rest
  end.

Definition comma : ascii := ","%char.
Definition newline : ascii := "010"%char.
Definition LF : string := String newline EmptyString.

(** A string that can sit in a cell of a comma-separated line. *)
Definition clean (s : string) : bool := free_of comma s && free_of newline s.

(** ** Numbers *)

(** The decimal digits of a non-negative integer, ["0"] for zero. *)
Definition digits (n : Z) : string :=
  NilZero.string_of_uint (N.to_uint (Z.to_N n)).

Fixpoint zeros (n : nat) : string :=
  match n with
  | O => EmptyString
  | S k => String "0"%char (zeros k)
  end.

(** A positive rational [num / den], [den > 0], kept as a pair. *)
Definition frac : Type := Z * Z.

Definition frac_le (a b : frac) : bool := fst a * snd b <=? fst b * snd a.
Definition frac_lt (a b : frac) : bool := fst a * snd b <? fst b * snd a.

(** [m * base ^ e] as a fraction. *)
Definition scaled (base m e : Z) : frac :=
  if 0 <=? e then (m * base ^ e, 1) else (m, base ^ (- e)).

(** [|a - b|] as a fraction. *)
Definition frac_dist (a b : frac) : frac :=
  (Z.abs (fst a * snd b - fst b * snd a), snd a * snd b).

(** The decimal candidates [s * 10 ^ (n - k)] with [k] digits that a
    binary64 value [m * 2 ^ e] reads back from: those between the
    midpoints to its two neighbours (the midpoints included when [m] is
    even, as ties round to even). *)
Section ShortestDecimal.
Variables m e : Z.

Definition exact_value : frac := scaled 2 m e.

Definition lower_midpoint : frac :=
  if (m =? 2 ^ 52) && (-1074 <? e) then scaled 2 (4 * m - 1) (e - 2)
  else scaled 2 (2 * m - 1) (e - 1).

Definition upper_midpoint : frac := scaled 2 (2 * m + 1) (e - 1).

Definition reads_back (v : frac) : bool :=
  if Z.even m then frac_le lower_midpoint v && frac_le v upper_midpoint
  else frac_lt lower_midpoint v && frac_lt v upper_midpoint.

(** The [n] with [10 ^ (n - 1) <= exact_value < 10 ^ n]. *)
Definition magnitude : Z :=
  let b := Z.log2 m + e in
  let f := b * 1233 / 4096 in
  match find (fun n => frac_lt exact_value (scaled 10 1 n))
             [f - 1; f; f + 1; f + 2; f + 3] with
  | Some n => n
  | None => f + 3
  end.

Definition candidates (k n : Z) : list (Z * Z) :=
  let p := n - k in
  let s := match scaled 10 1 p with
           | (pn, pd) => (fst exact_value * pd) / (snd exact_value * pn)
           end in
  filter (fun sn =>
            (10 ^ (k - 1) <=? fst sn) && (fst sn <? 10 ^ k)
            && reads_back (scaled 10 (fst sn) p))
         [(s, n); (s + 1, n)].

Definition closer (a b : Z * Z) (k : Z) : Z * Z :=
  let da := frac_dist (scaled 10 (fst a) (snd a - k)) exact_value in
  let db := frac_dist (scaled 10 (fst b) (snd b - k)) exact_value in
  if frac_lt db da then b
  else if frac_lt da db then a
  else if Z.even (fst a) then a else b.

Definition best (k : Z) (cs : list (Z * Z)) : option (Z * Z) :=
  match cs with
  | [] => None
  | c :: rest => Some (fold_left (fun a b => closer a b k) rest c)
  end.

(** The triple [(s, k, n)] of ECMAScript's Number::toString: the least
    [k], and for it the candidate closest to the value. *)
Fixpoint shortest (fuel : nat) (k : Z) : Z * Z * Z :=
  let n0 := magnitude in
  match best k (candidates k n0 ++ candidates k (n0 + 1)) with
  | Some (s, n) => (s, k, n)
  | None =>
      match fuel with
      | O =>
          ((fst exact_value * 10 ^ 17) / (snd exact_value * 10 ^ n0), 17, n0)
      | S fuel' => shortest fuel' (k + 1)
      end
  end.
End ShortestDecimal.

(** The layout of the digits [s] ([k] of them) with decimal exponent [n]. *)
Definition layout (s k n : Z) : string :=
  let ds := digits s in
  if (k <=? n) && (n <=? 21) then ds ++ zeros (Z.to_nat (n - k))
  else if (0 <? n) && (n <=? 21) then
    substring O (Z.to_nat n) ds ++ "." ++
    substring (Z.to_nat n) (Z.to_nat (k - n)) ds
  else if (-6 <? n) && (n <=? 0) then "0." ++ zeros (Z.to_nat (- n)) ++ ds
  else
    let ex := (if 0 <=? n - 1 then "+" else "-") ++ digits (Z.abs (n - 1)) in
    if k =? 1 then ds ++ "e" ++ ex
    else substring 0%nat 1%nat ds ++ "."
         ++ substring 1%nat (Z.to_nat (k - 1)) ds ++ "e" ++ ex.

(** Number::toString (radix 10). *)
Definition Number_toString (x : float) : string :=
  match Prim2SF x with
  | S754_nan => "NaN"
  | S754_zero _ => "0"
  | S754_infinity false => "Infinity"
  | S754_infinity true => "-Infinity"
  | S754_finite sign m e =>
      match shortest (Zpos m) e 16 1 with
      | (s, k, n) => (if sign then "-" else EmptyString) ++ layout s k n
      end
  end.

(** [Number.prototype.toFixed(1)]: one digit after the point, the value
    rounded to the nearest tenth (a tie goes away from zero); values of
    magnitude [10 ^ 21] and above, and the non-finite ones, print as
    Number::toString does. *)
Definition toFixed1 (x : float) : string :=
  match Prim2SF x with
  | S754_finite sign m e =>
      let v := scaled 2 (Zpos m) e in
      if frac_le (10 ^ 21, 1) v then Number_toString x
      else
        let n := (20 * fst v + snd v) / (2 * snd v) in
        let ds := digits n in
        let ds := if Nat.leb (String.length ds) 1 then "0" ++ ds else ds in
        let k := String.length ds in
        (if sign then "-" else EmptyString)
        ++ substring 0%nat (k - 1)%nat ds ++ "."
        ++ substring (k - 1)%nat 1%nat ds
  | S754_zero _ => "0.0"
  | _ => Number_toString x
  end.

(** [Math.min] and [Math.max] over the spread arguments: NaN wins, and
    [-0] counts as smaller than [+0]. *)
Definition is_neg_zero (x : float) : bool :=
  match Prim2SF x with S754_zero true => true | _ => false end.

Definition is_pos_zero (x : float) : bool :=
  match Prim2SF x with S754_zero false => true | _ => false end.

Fixpoint min_from (lowest : float) (args : list float) : float :=
  match args with
  | [] => lowest
  | x :: rest =>
      if is_nan x then nan
      else if is_neg_zero x && is_pos_zero lowest then min_from x rest
      else if (x <? lowest)%float then min_from x rest
      else min_from lowest rest
  end.

Fixpoint max_from (highest : float) (args : list float) : float :=
  match args with
  | [] => highest
  | x :: rest =>
      if is_nan x then nan
      else if is_pos_zero x && is_neg_zero highest then max_from x rest
      else if (highest <? x)%float then max_from x rest
      else max_from highest rest
  end.

Definition Math_min (args : list float) : float := min_from infinity args.
Definition Math_max (args : list float) : float := max_from neg_infinity args.

(** The length of an array as a number. *)
Definition length_number {A : Type} (l : list A) : float :=
  PrimFloat.of_uint63 (Uint63.of_Z (Z.of_nat (List.length l))).

(** ** Values and coercions *)

(** What a cell of an array, or a field of a result object, holds. *)
Inductive Value : Type :=
| VUndefined
| VNull
| VNumber (x : float)
| VString (s : string).

(** ToString, as [Array.prototype.join] applies it: [undefined] and
    [null] give the empty string there. *)
Definition join_cell (v : Value) : string :=
  match v with
  | VUndefined | VNull => EmptyString
  | VNumber x => Number_toString x
  | VString s => s
  end.

(** [Array.prototype.join] on an array of values. *)
Definition Array_join (sep : string) (cells : list Value) : string :=
  join sep (map join_cell cells).

(** ** [Array.prototype.sort]

    The built-in sort is stable and driven by the comparator alone: [x]
    goes after [y] only when [comparefn x y > 0].  For a consistent
    comparator every stable sort returns the same array; insertion from
    the right is the one written here. *)
Section Sort.
Context {A : Type} (comparefn : A -> A -> Z).

Fixpoint insert (x : A) (sorted : list A) : list A :=
  match sorted with
  | [] => [x]
  | y :: rest =>
      if 0 <? comparefn x y then y :: insert x rest else x :: y :: rest
  end.

Definition Array_sort (l : list A) : list A := fold_right insert [] l.
End Sort.

(** The comparator [(a, b) => b.key - a.key]. *)
Definition descending_by {A : Type} (key : A -> Z) (a b : A) : Z :=
  key b - key a.

(** Sorted with the greatest key first. *)
Definition descending {A : Type} (key : A -> Z) : list A -> Prop :=
  StronglySorted (fun a b => key b <= key a).

Definition has_key {A : Type} (key : A -> Z) (t : Z) (a : A) : bool :=
  key a =? t.

(** ** Completions

    A computation either completes normally with a value or throws; the
    message of the thrown [Error] is all the component ever reads.  An
    awaited promise resolves or rejects the same way. *)
Inductive Completion (A : Type) : Type :=
| Normal (value : A)
| Throw (message : string).

Arguments Normal {A} value.
Arguments Throw {A} message.

End JS.


(* ================================================================== *)
(** * The component *)
(* ================================================================== *)

Module App.
Import JS.

(** ** Readings *)

(** A measurement as the decoded payload carries it: the property may be
    missing ([undefined] when read), [null], or a number. *)
Inductive Measurement : Type :=
| Undefined
| Null
| Num (x : float).

(** One element of the payload, an object of the shape the data source
    sends.  [timestamp] is an integer number of milliseconds, so that the
    difference of two timestamps is exact; [device_id] is [None] when the
    property is missing or [null]. *)
Record Reading : Type := {
  timestamp : Z;
  device_id : option string;
  soil_moisture : Measurement;
  temperature : Measurement;
  humidity : Measurement;
  light_lux : Measurement
}.

(** The property names [calculateStats] and [getTrend] are called with. *)
Inductive Field : Type :=
| F_soil_moisture
| F_temperature
| F_humidity
| F_light_lux.

(** [d[field]] *)
Definition get (d : Reading) (field : Field) : Measurement :=
  match field with
  | F_soil_moisture => soil_moisture d
  | F_temperature => temperature d
  | F_humidity => humidity d
  | F_light_lux => light_lux d
  end.

(** ToNumber, which [<], [>], [+] and [-] apply to their operands. *)
Definition ToNumber (v : Measurement) : float :=
  match v with
  | Undefined => nan
  | Null => 0%float
  | Num x => x
  end.

Definition lt (a b : float) : bool := (a <? b)%float.
Definition gt (a b : float) : bool := (b <? a)%float.

Definition to_value (v : Measurement) : Value :=
  match v with
  | Undefined => VUndefined
  | Null => VNull
  | Num x => VNumber x
  end.

Definition string_value (v : option string) : Value :=
  match v with
  | None => VUndefined
  | Some s => VString s
  end.

(** ** State of the component (the [useState] cells) *)

Record State : Type := {
  data : list Reading;
  loading : bool;
  error : option string;
  lastUpdate : option Z;
  darkMode : bool;
  showAlert : bool;
  alertMessage : string
}.

Definition initial : State :=
  {| data := []; loading := true; error := None; lastUpdate := None;
     darkMode := false; showAlert := false; alertMessage := EmptyString |}.

(** ** Computations over the state that may throw *)

Definition M (A : Type) : Type := State -> Completion A * State.

Definition ret {A : Type} (a : A) : M A := fun s => (Normal a, s).

Definition throw {A : Type} (message : string) : M A :=
  fun s => (Throw message, s).

Definition bind {A B : Type} (c : M A) (k : A -> M B) : M B :=
  fun s =>
    match c s with
    | (Normal a, s') => k a s'
    | (Throw message, s') => (Throw message, s')
    end.

Notation "x <- c1 ;; c2" := (bind c1 (fun x => c2))
  (at level 61, c1 at next level, right associativity).
Notation "c1 ;; c2" := (bind c1 (fun _ => c2))
  (at level 61, right associativity).

(** [await p]: the value a settled promise resolved to, or its rejection
    thrown. *)
Definition await {A : Type} (p : Completion A) : M A := fun s => (p, s).

(** [try { body } catch (e) { handler(e.message) } finally { finalizer }] *)
Definition try_catch_finally (body : M unit) (handler : string -> M unit)
    (finalizer : M unit) : M unit :=
  fun s =>
    let (caught, s1) :=
      match body s with
      | (Normal tt, s') => (Normal tt, s')
      | (Throw message, s') => handler message s'
      end in
    match finalizer s1 with
    | (Normal tt, s2) => (caught, s2)
    | (Throw message, s2) => (Throw message, s2)
    end.

Definition setData (v : list Reading) : M unit := fun s =>
  (Normal tt,
   {| data := v; loading := loading s; error := error s;
      lastUpdate := lastUpdate s; darkMode := darkMode s;
      showAlert := showAlert s; alertMessage := alertMessage s |}).

Definition setLoading (v : bool) : M unit := fun s =>
  (Normal tt,
   {| data := data s; loading := v; error := error s;
      lastUpdate := lastUpdate s; darkMode := darkMode s;
      showAlert := showAlert s; alertMessage := alertMessage s |}).

Definition setError (v : option string) : M unit := fun s =>
  (Normal tt,
   {| data := data s; loading := loading s; error := v;
      lastUpdate := lastUpdate s; darkMode := darkMode s;
      showAlert := showAlert s; alertMessage := alertMessage s |}).

Definition setLastUpdate (v : option Z) : M unit := fun s =>
  (Normal tt,
   {| data := data s; loading := loading s; error := error s;
      lastUpdate := v; darkMode := darkMode s;
      showAlert := showAlert s; alertMessage := alertMessage s |}).

Definition setShowAlert (v : bool) : M unit := fun s =>
  (Normal tt,
   {| data := data s; loading := loading s; error := error s;
      lastUpdate := lastUpdate s; darkMode := darkMode s;
      showAlert := v; alertMessage := alertMessage s |}).

Definition setAlertMessage (v : string) : M unit := fun s =>
  (Normal tt,
   {| data := data s; loading := loading s; error := error s;
      lastUpdate := lastUpdate s; darkMode := darkMode s;
      showAlert := showAlert s; alertMessage := v |}).

(** ** [checkAlerts] *)

Definition soil_low : string := "🚨 Soil moisture is LOW! Plant needs water.".
Definition temperature_high : string := "🔥 Temperature is HIGH!".
Definition temperature_low : string := "❄️ Temperature is LOW!".
Definition humidity_low : string := "💧 Humidity is LOW!".

(** [alerts.push(message)] when the test holds. *)
Definition push_if (test : bool) (message : string) (alerts : list string)
    : list string :=
  if test then alerts ++ [message] else alerts.

(** The array [alerts] after the four tests. *)
Definition alerts_of (latest : Reading) : list string :=
  let alerts := [] in
  let alerts :=
    push_if (lt (ToNumber (soil_moisture latest)) 30) soil_low alerts in
  let alerts :=
    push_if (gt (ToNumber (temperature latest)) 30) temperature_high alerts in
  let alerts :=
    push_if (lt (ToNumber (temperature latest)) 15) temperature_low alerts in
  let alerts :=
    push_if (lt (ToNumber (humidity latest)) 40) humidity_low alerts in
  alerts.

(** [latest] is [None] for [undefined], which [sortedData[0]] is on an
    empty array. *)
Definition checkAlerts (latest : option Reading) : M unit :=
  match latest with
  | None => ret tt
  | Some latest =>
      let alerts := alerts_of latest in
      if (0 <? List.length alerts)%nat then
        setAlertMessage (join " | " alerts) ;;
        setShowAlert true
      else
        setShowAlert false
  end.

(** ** [fetchData] *)

(** The decoded payload.  An object is kept by what [json.body] is: a
    falsy value (the property missing included), or a truthy one, which
    [JSON.parse] either rejects with a [SyntaxError] or decodes. *)
Inductive Json : Type :=
| JNull
| JBoolean (b : bool)
| JNumber (x : float)
| JString (s : string)
| JArray (elements : list Reading)
| JObject (body : Body)
with Body : Type :=
| BodyFalsy
| BodyInvalid (message : string)
| BodyParsed (parsed : Json).

(** The response of the endpoint: its status, and what awaiting
    [response.json()] gives. *)
Record Response : Type := {
  status : N;
  json : Completion Json
}.

(** [response.ok]: the status is in the range 200 to 299. *)
Definition ok (response : Response) : bool :=
  ((200 <=? status response) && (status response <=? 299))%N.

(** The message of the [TypeError] that reading [body] off [null] throws
    (in V8's wording; that it is thrown is what matters). *)
Definition null_body_message : string :=
  "Cannot read properties of null (reading 'body')".

(** [json.body] *)
Definition body_of (j : Json) : M Body :=
  match j with
  | JNull => throw null_body_message
  | JObject body => ret body
  | _ => ret BodyFalsy
  end.

Definition by_timestamp_desc : Reading -> Reading -> Z :=
  descending_by timestamp.

(** One run of [fetchData], from the settled [fetch] promise [fetched] and
    the clock reading [now] of [new Date()]. *)
Definition fetchData (fetched : Completion Response) (now : Z) : M unit :=
  try_catch_finally
    (response <- await fetched ;;
     if negb (ok response) then
       throw ("HTTP error! status: " ++ digits (Z.of_N (status response)))
     else
       json <- await (json response) ;;
       match json with
       | JArray elements =>
           let sortedData := Array_sort by_timestamp_desc elements in
           setData sortedData ;;
           setLastUpdate (Some now) ;;
           setError None ;;
           checkAlerts (hd_error sortedData)
       | _ =>
           body <- body_of json ;;
           match body with
           | BodyFalsy => ret tt
           | BodyInvalid message => throw message
           | BodyParsed (JArray parsedData) =>
               let sortedData := Array_sort by_timestamp_desc parsedData in
               setData sortedData ;;
               setLastUpdate (Some now) ;;
               setError None ;;
               checkAlerts (hd_error sortedData)
           | BodyParsed _ => ret tt
           end
       end)
    (fun message => setError (Some message))
    (setLoading false).

(** The state after [fetchData]. *)
Definition refresh (fetched : Completion Response) (now : Z) (s : State)
    : State :=
  snd (fetchData fetched now s).

(** Runs of [fetchData] change the state when they complete, one at a
    time; [seq] is the position of the run among the dispatched ones, which
    the component itself keeps nowhere. *)
Record Completed : Type := {
  seq : nat;
  fetched : Completion Response;
  completed_at : Z
}.

Definition complete (s : State) (c : Completed) : State :=
  refresh (fetched c) (completed_at c) s.

(** The state after the runs complete in the order of the list. *)
Definition run (s : State) (completions : list Completed) : State :=
  fold_left complete completions s.

(** ** [calculateStats] *)

Record Stats : Type := {
  min : Value;
  max : Value;
  avg : Value
}.

Definition is_present (v : Measurement) : bool :=
  match v with
  | Null | Undefined => false
  | Num _ => true
  end.

Definition calculateStats (data : list Reading) (field : Field) : Stats :=
  if (List.length data =? 0)%nat then
    {| min := VNumber 0; max := VNumber 0; avg := VNumber 0 |}
  else
    let values := filter is_present (map (fun d => get d field) data) in
    let numbers := map ToNumber values in
    {| min := VString (toFixed1 (Math_min numbers));
       max := VString (toFixed1 (Math_max numbers));
       avg := VString
                (toFixed1 (fold_left PrimFloat.add numbers 0
                           / length_number values)%float) |}.

(** ** [getTrend] *)

Definition getTrend (data : list Reading) (field : Field) : string :=
  if (List.length data <? 2)%nat then "stable"
  else
    match data with
    | d0 :: d1 :: _ =>
        let latest := ToNumber (get d0 field) in
        let previous := ToNumber (get d1 field) in
        if gt latest (previous + 1)%float then "up"
        else if lt latest (previous - 1)%float then "down"
        else "stable"
    | _ => "stable"
    end.

(** ** [exportToCSV] *)

(** The file handed to the browser: the text of the [Blob], its type and
    the [download] name of the link. *)
Record Download : Type := {
  content : string;
  type : string;
  download : string
}.

Definition headers : list string :=
  ["Timestamp"; "Device ID"; "Soil Moisture (%)"; "Temperature (°C)";
   "Humidity (%)"; "Light (lux)"].

Section CsvExport.
(** [new Date(t).toLocaleString()], which the host and its locale decide. *)
Variable toLocaleString : Z -> string.
(** [new Date().toISOString()] at the time of the click. *)
Variable nowISO : string.

Definition row (d : Reading) : string :=
  Array_join ","
    [ VString (toLocaleString (timestamp d));
      string_value (device_id d);
      to_value (soil_moisture d);
      to_value (temperature d);
      to_value (humidity d);
      to_value (light_lux d) ].

Definition csvContent (data : list Reading) : string :=
  join LF (join "," headers :: map row data).

Definition exportToCSV : M (option Download) := fun s =>
  if (List.length (data s) =? 0)%nat then (Normal None, s)
  else
    (Normal (Some
       {| content := csvContent (data s);
          type := "text/csv";
          download :=
            "plant-data-" ++ hd EmptyString (split "T" nowISO) ++ ".csv" |}),
     s).
End CsvExport.

(** ** The handlers of the buttons *)

Definition setDarkMode (v : bool) : M unit := fun s =>
  (Normal tt,
   {| data := data s; loading := loading s; error := error s;
      lastUpdate := lastUpdate s; darkMode := v;
      showAlert := showAlert s; alertMessage := alertMessage s |}).

(** [onClick={() => setDarkMode(!darkMode)}] *)
Definition toggleDarkMode : M unit := fun s =>
  setDarkMode (negb (darkMode s)) s.

(** [onClick={() => setShowAlert(false)}], the cross of the alert banner. *)
Definition dismissAlert : M unit := setShowAlert false.

(** What happens to the component between two renders: a run of
    [fetchData] completes (started by the timer, at mount or by a button),
    or one of the two buttons above is clicked. *)
Inductive Event : Type :=
| FetchCompleted (fetched : Completion Response) (now : Z)
| DarkModeClicked
| AlertDismissed.

Definition handle (s : State) (e : Event) : State :=
  match e with
  | FetchCompleted fetched now => snd (fetchData fetched now s)
  | DarkModeClicked => snd (toggleDarkMode s)
  | AlertDismissed => snd (dismissAlert s)
  end.

(** The state after the events of the list, in their order. *)
Definition after (s : State) (events : list Event) : State :=
  fold_left handle events s.

(** ** [getChartData] *)

Module Chart.
Record Point : Type := {
  time : string;
  soil : Measurement;
  temp : Measurement;
  humidity : Measurement;
  light : Measurement
}.
End Chart.

Section ChartData.
(** [new Date(t).toLocaleTimeString()], which the host decides. *)
Variable toLocaleTimeString : Z -> string.

Definition chartPoint (d : Reading) : Chart.Point :=
  {| Chart.time := toLocaleTimeString (timestamp d);
     Chart.soil := soil_moisture d;
     Chart.temp := temperature d;
     Chart.humidity := humidity d;
     Chart.light := light_lux d |}.

(** [data.slice(0, 20).reverse().map(...)]; the slice is a fresh array, so
    reversing it in place leaves [data] alone. *)
Definition getChartData (data : list Reading) : list Chart.Point :=
  map chartPoint (rev (firstn 20 data)).
End ChartData.

(** ** [TrendIcon] *)

(** An element: the icon component and its class. *)
Record Element : Type := {
  component : string;
  className : string
}.

Definition TrendIcon (trend : string) : Element :=
  if (trend =? "up")%string then
    {| component := "TrendingUp"; className := "w-4 h-4 text-green-500" |}
  else if (trend =? "down")%string then
    {| component := "TrendingDown"; className := "w-4 h-4 text-red-500" |}
  else
    {| component := "Minus"; className := "w-4 h-4 text-gray-500" |}.

(** ** [getStatusColor] and [getStatusBg] *)

Record Thresholds : Type := {
  low : float;
  medium : float
}.

Definition getStatusColor (darkMode : bool) (value : Measurement)
    (thresholds : Thresholds) : string :=
  if lt (ToNumber value) (low thresholds) then
    if darkMode then "text-red-400" else "text-red-500"
  else if lt (ToNumber value) (medium thresholds) then
    if darkMode then "text-yellow-400" else "text-yellow-500"
  else
    if darkMode then "text-green-400" else "text-green-500".

Definition getStatusBg (darkMode : bool) (value : Measurement)
    (thresholds : Thresholds) : string :=
  if darkMode then
    if lt (ToNumber value) (low thresholds)
    then "bg-red-900/30 border-red-700"
    else if lt (ToNumber value) (medium thresholds)
    then "bg-yellow-900/30 border-yellow-700"
    else "bg-green-900/30 border-green-700"
  else
    if lt (ToNumber value) (low thresholds)
    then "bg-red-50 border-red-200"
    else if lt (ToNumber value) (medium thresholds)
    then "bg-yellow-50 border-yellow-200"
    else "bg-green-50 border-green-200".

(** ** What the component renders *)

(** [latestReading?.field] *)
Definition chain (latestReading : option Reading)
    (field : Reading -> Measurement) : Measurement :=
  match latestReading with
  | Some d => field d
  | None => Undefined
  end.

(** The thresholds the soil card and the table pass. *)
Definition soil_thresholds : Thresholds := {| low := 30; medium := 50 |}.

(** The class of the soil bar:
    [soil_moisture < 30 ? 'bg-red-500' : soil_moisture < 50 ? ... ]. *)
Definition soil_bar (latestReading : option Reading) : string :=
  if lt (ToNumber (chain latestReading soil_moisture)) 30 then "bg-red-500"
  else if lt (ToNumber (chain latestReading soil_moisture)) 50
  then "bg-yellow-500"
  else "bg-green-500".

(** The line under the temperature:
    [temperature > 30 ? 'Hot' : temperature < 15 ? 'Cold' : 'Optimal']. *)
Definition temperature_line (latestReading : option Reading) : string :=
  if gt (ToNumber (chain latestReading temperature)) 30 then "Hot"
  else if lt (ToNumber (chain latestReading temperature)) 15 then "Cold"
  else "Optimal".

(** The line under the humidity:
    [humidity > 70 ? 'High' : humidity < 40 ? 'Low' : 'Normal']. *)
Definition humidity_line (latestReading : option Reading) : string :=
  if gt (ToNumber (chain latestReading humidity)) 70 then "High"
  else if lt (ToNumber (chain latestReading humidity)) 40 then "Low"
  else "Normal".

(** The rows of the table: [data.slice(0, 10)]. *)
Definition table_rows (data : list Reading) : list Reading :=
  firstn 10 data.

(** The four returns of the component, in the order they are tried. *)
Inductive Screen : Type :=
| LoadingScreen
| ErrorScreen (message : string)
| NoDataScreen
| Dashboard (latestReading : option Reading).

(** [if (error)]: [null] and the empty string are falsy. *)
Definition truthy (error : option string) : bool :=
  match error with
  | None => false
  | Some message => negb (message =? EmptyString)%string
  end.

Definition render (s : State) : Screen :=
  if loading s then LoadingScreen
  else if truthy (error s) then
    ErrorScreen (match error s with Some m => m | None => EmptyString end)
  else if (List.length (data s) =? 0)%nat then NoDataScreen
  else Dashboard (hd_error (data s)).

End App.

(* ================================================================== *)
(** * The behaviour the specification describes *)
(* ================================================================== *)

(** These definitions follow the words of the specification, to be set
    against the functions of the component. *)
Module Described.
Import JS App.

(** "present and < limit", "present and > limit". *)
Definition present_below (v : Measurement) (limit : float) : bool :=
  match v with
  | Num x => (x <? limit)%float
  | Undefined | Null => false
  end.

Definition present_above (v : Measurement) (limit : float) : bool :=
  match v with
  | Num x => (limit <? x)%float
  | Undefined | Null => false
  end.

(** The table of the four alert rules, in its order. *)
Definition alert_table : list ((Reading -> bool) * string) :=
  [ (fun r => present_below (soil_moisture r) 30, soil_low);
    (fun r => present_above (temperature r) 30, temperature_high);
    (fun r => present_below (temperature r) 15, temperature_low);
    (fun r => present_below (humidity r) 40, humidity_low) ].

(** The messages of the rules that hold, in table order. *)
Definition evaluate (r : Reading) : list string :=
  map snd (filter (fun rule => fst rule r) alert_table).

(** The trend of a field: [stable] with fewer than two readings or when
    one of the two values is absent, else by the dead-band of one unit. *)
Definition trend (field : Field) (readings : list Reading) : string :=
  match readings with
  | r0 :: r1 :: _ =>
      match get r0 field, get r1 field with
      | Num latest, Num previous =>
          if (previous + 1 <? latest)%float then "up"
          else if (latest <? previous - 1)%float then "down"
          else "stable"
      | _, _ => "stable"
      end
  | _ => "stable"
  end.

(** The defined-zero result of the statistics. *)
Definition zero_stats : Stats :=
  {| min := VNumber 0; max := VNumber 0; avg := VNumber 0 |}.

(** A refresh cycle that ends in a failure, and the message of it: the
    transport error, or the one derived from a status outside 200-299. *)
Inductive fails_with : Completion Response -> string -> Prop :=
| transport_failure (message : string) :
    fails_with (Throw message) message
| status_failure (response : Response) :
    ok response = false ->
    fails_with (Normal response)
      ("HTTP error! status: " ++ digits (Z.of_N (status response))).

(** A successful cycle whose payload is a sequence of readings, at the top
    level or as the text of [body]. *)
Inductive delivers : Completion Response -> list Reading -> Prop :=
| top_level_sequence (response : Response) (rs : list Reading) :
    ok response = true ->
    json response = Normal (JArray rs) ->
    delivers (Normal response) rs
| body_sequence (response : Response) (rs : list Reading) :
    ok response = true ->
    json response = Normal (JObject (BodyParsed (JArray rs))) ->
    delivers (Normal response) rs.

(** The same, as a function: the sequence a cycle delivers, if any. *)
Definition delivered (fetched : Completion Response) : option (list Reading) :=
  match fetched with
  | Normal response =>
      if ok response then
        match json response with
        | Normal (JArray rs) => Some rs
        | Normal (JObject (BodyParsed (JArray rs))) => Some rs
        | _ => None
        end
      else None
  | Throw _ => None
  end.

(** The sequence delivered by the last of the completions that delivers
    one. *)
Fixpoint last_delivered (completions : list Completed)
    : option (list Reading) :=
  match completions with
  | [] => None
  | c :: rest =>
      match last_delivered rest with
      | Some rs => Some rs
      | None => delivered (fetched c)
      end
  end.

(** A decoded value that is not null, not a sequence, and not an object
    whose [body] holds a sequence or fails to parse. *)
Definition carries_nothing (j : Json) : bool :=
  match j with
  | JBoolean _ | JNumber _ | JString _ => true
  | JObject BodyFalsy => true
  | JObject (BodyParsed (JArray _)) => false
  | JObject (BodyParsed _) => true
  | JObject (BodyInvalid _) => false
  | JArray _ => false
  | JNull => false
  end.

(** The steps of [fetchData] once a sequence has been decoded. *)
Definition ingest (elements : list Reading) (now : Z) : M unit :=
  let sortedData := Array_sort by_timestamp_desc elements in
  setData sortedData ;;
  setLastUpdate (Some now) ;;
  setError None ;;
  checkAlerts (hd_error sortedData).

(** The text of a measurement in the export: empty when it is absent. *)
Definition field_text (v : Measurement) : string :=
  match v with
  | Num x => Number_toString x
  | Undefined | Null => EmptyString
  end.

(** The five cells of a reading after its date. *)
Definition cells (d : Reading) : list string :=
  [ match device_id d with Some id => id | None => EmptyString end;
    field_text (soil_moisture d);
    field_text (temperature d);
    field_text (humidity d);
    field_text (light_lux d) ].

Definition clean_id (d : Reading) : Prop :=
  match device_id d with
  | Some id => clean id = true
  | None => True
  end.

End Described.

(* ================================================================== *)
(** * Sample inputs *)
(* ================================================================== *)

Module Sample.
Import JS App.

Definition reading (t : Z) (soil temp hum : Measurement) : Reading :=
  {| timestamp := t; device_id := Some "d1"; soil_moisture := soil;
     temperature := temp; humidity := hum; light_lux := Num 500 |}.

(** A reading whose soil sensor reported [null]. *)
Definition soil_null : Reading := reading 200 Null (Num 22) (Num 55).

(** A reading with no temperature at all. *)
Definition no_temperature : Reading := reading 100 (Num 45) Undefined (Num 55).

Definition older : Reading := reading 100 (Num 45) (Num 22) (Num 55).
Definition newer : Reading := reading 200 (Num 50) (Num 23) (Num 56).
Definition same_time : Reading := reading 200 (Num 51) (Num 24) (Num 57).

Definition respond (j : Json) : Completion Response :=
  Normal {| status := 200; json := Normal j |}.

(** A state showing earlier data and an earlier error. *)
Definition stale : State :=
  {| data := [older]; loading := false; error := Some "Failed to fetch";
     lastUpdate := Some 1; darkMode := false; showAlert := true;
     alertMessage := humidity_low |}.

(** Three readings out of order, two of them of one timestamp. *)
Definition unsorted : list Reading := [older; newer; same_time].

(** An object whose [body] is cut short. *)
Definition bad_body : Json :=
  JObject (BodyInvalid "Unexpected end of JSON input").

(** A response with a status outside 200-299. *)
Definition unavailable : Response :=
  {| status := 503; json := Normal JNull |}.

(** Two runs, named by the order they were dispatched in. *)
Definition first_dispatched : Completed :=
  {| seq := 1; fetched := respond (JArray [older]); completed_at := 9000 |}.

Definition second_dispatched : Completed :=
  {| seq := 2; fetched := respond (JArray [newer]); completed_at := 6000 |}.

(** A stand-in for the date rendering of the host, with a comma in it as
    the en-US one has, and an ISO time stamp. *)
Definition sample_toLocaleString (t : Z) : string :=
  "1/1/1970, 12:00:0" ++ digits (t mod 10) ++ " AM".

Definition clock : string := "2024-05-06T10:00:00.000Z".

End Sample.

(* ================================================================== *)
(** * Reading the rendered classes *)
(* ================================================================== *)

Module Shown.
Import JS App.

(** The three bands of a status. *)
Inductive Band : Type :=
| Red
| Yellow
| Green.

(** The band a text class of [getStatusColor] stands for. *)
Definition color_band (cls : string) : option Band :=
  if (cls =? "text-red-400")%string || (cls =? "text-red-500")%string
  then Some Red
  else if (cls =? "text-yellow-400")%string || (cls =? "text-yellow-500")%string
  then Some Yellow
  else if (cls =? "text-green-400")%string || (cls =? "text-green-500")%string
  then Some Green
  else None.

(** The band a background class of [getStatusBg] stands for. *)
Definition bg_band (cls : string) : option Band :=
  if (cls =? "bg-red-900/30 border-red-700")%string
     || (cls =? "bg-red-50 border-red-200")%string
  then Some Red
  else if (cls =? "bg-yellow-900/30 border-yellow-700")%string
          || (cls =? "bg-yellow-50 border-yellow-200")%string
  then Some Yellow
  else if (cls =? "bg-green-900/30 border-green-700")%string
          || (cls =? "bg-green-50 border-green-200")%string
  then Some Green
  else None.

(** Sorted with the least key first. *)
Definition ascending {A : Type} (key : A -> Z) : list A -> Prop :=
  StronglySorted (fun a b => key a <= key b).

(** The alert cells agree with each other: a banner on display has a
    text. *)
Definition banner_has_text (s : State) : Prop :=
  showAlert s = true -> alertMessage s <> EmptyString.

End Shown.

(* ================================================================== *)
(** * The host: rendered dates, and what a cycle throws *)
(* ================================================================== *)

Module Host.
Import JS App.

(** Two digits, with a leading zero below ten. *)
Definition pad2 (n : Z) : string :=
  if n <? 10 then "0" ++ digits n else digits n.

(** The civil date [(year, month, day)] of a day counted from
    1 January 1970, in the proleptic Gregorian calendar. *)
Definition civil_from_days (days : Z) : Z * Z * Z :=
  let z := days + 719468 in
  let era := z / 146097 in
  let doe := z - era * 146097 in
  let yoe := (doe - doe / 1460 + doe / 36524 - doe / 146096) / 365 in
  let doy := doe - (365 * yoe + yoe / 4 - yoe / 100) in
  let mp := (5 * doy + 2) / 153 in
  let d := doy - (153 * mp + 2) / 5 + 1 in
  let m := if mp <? 10 then mp + 3 else mp - 9 in
  let y := yoe + era * 400 + (if m <=? 2 then 1 else 0) in
  (y, m, d).

(** [new Date(t).toLocaleString()] on a host whose locale is en-US and
    whose time zone is UTC, for times of the common era:
    ["M/D/YYYY, h:mm:ss AM"]. *)
Definition toLocaleString_en_US (t : Z) : string :=
  let seconds := t / 1000 in
  let second_of_day := seconds mod 86400 in
  let hour := second_of_day / 3600 in
  let h12 := if hour mod 12 =? 0 then 12 else hour mod 12 in
  match civil_from_days (seconds / 86400) with
  | (y, m, d) =>
      digits m ++ "/" ++ digits d ++ "/" ++ digits y ++ ", "
      ++ digits h12 ++ ":" ++ pad2 (second_of_day mod 3600 / 60) ++ ":"
      ++ pad2 (second_of_day mod 60)
      ++ (if hour <? 12 then " AM" else " PM")
  end.

(** The same on a host whose locale is sv-SE: ["YYYY-MM-DD hh:mm:ss"]. *)
Definition toLocaleString_sv_SE (t : Z) : string :=
  let seconds := t / 1000 in
  let second_of_day := seconds mod 86400 in
  match civil_from_days (seconds / 86400) with
  | (y, m, d) =>
      digits y ++ "-" ++ pad2 m ++ "-" ++ pad2 d ++ " "
      ++ pad2 (second_of_day / 3600) ++ ":"
      ++ pad2 (second_of_day mod 3600 / 60) ++ ":"
      ++ pad2 (second_of_day mod 60)
  end.

(** A reading of 14 November 2023, 22:13:20 UTC. *)
Definition november : Reading :=
  {| timestamp := 1700000000000; device_id := Some "d1";
     soil_moisture := Num 50; temperature := Undefined;
     humidity := Num 56; light_lux := Num 500 |}.

(** The message, if any, that the [try] block of [fetchData] throws into
    its [catch]: the rejection of [fetch], the status error, the rejection
    of [response.json()], the [TypeError] on a decoded [null], or the
    [SyntaxError] of [JSON.parse] on the body. *)
Definition thrown (fetched : Completion Response) : option string :=
  match fetched with
  | Throw message => Some message
  | Normal response =>
      if ok response then
        match json response with
        | Throw message => Some message
        | Normal JNull => Some null_body_message
        | Normal (JObject (BodyInvalid message)) => Some message
        | Normal _ => None
        end
      else Some ("HTTP error! status: " ++ digits (Z.of_N (status response)))
  end.

End Host.

(* ================================================================== *)
(** * Facts about the run-time *)
(* ================================================================== *)

Import JS.

Example toString_tests :
  map JS.Number_toString
      [25; 0.1; 0.5; 1e21; 123456789012345680000; 5e-324;
       1.7976931348623157e308; -42.75; 1e-7; 0.000001; 100; 1234.5678;
       0.30000000000000004; nan; infinity; neg_infinity; neg_zero;
       4.35; 2.5e-7; 9007199254740993]%float
  = ["25"; "0.1"; "0.5"; "1e+21"; "123456789012345680000"; "5e-324";
     "1.7976931348623157e+308"; "-42.75"; "1e-7"; "0.000001"; "100";
     "1234.5678"; "0.30000000000000004"; "NaN"; "Infinity"; "-Infinity";
     "0"; "4.35"; "2.5e-7"; "9007199254740992"].
Proof. vm_compute. reflexivity. Qed.

Example toFixed1_tests :
  map JS.toFixed1
      [25; 0.05; 0.25; 1.45; -0.04; 1e21; 99.95; 29.96; -7.25; nan;
       infinity; neg_infinity; neg_zero; 0; 1234.5678]%float
  = ["25.0"; "0.1"; "0.3"; "1.4"; "-0.0"; "1e+21"; "100.0"; "30.0"; "-7.3";
     "NaN"; "Infinity"; "-Infinity"; "0.0"; "0.0"; "1234.6"].
Proof. vm_compute. reflexivity. Qed.

(** ** Comparisons with NaN are false *)

Lemma ltb_nan_l (y : float) : (nan <? y)%float = false.
Proof. rewrite FloatAxioms.ltb_spec. now destruct (Prim2SF y). Qed.

Lemma ltb_nan_r (x : float) : (x <? nan)%float = false.
Proof. rewrite FloatAxioms.ltb_spec. now destruct (Prim2SF x). Qed.

(** ** Splitting and joining *)

Section SplitJoin.
Variable c : ascii.

Lemma split_not_nil (s : string) : split c s <> [].
Proof.
  induction s as [|a rest IH]; simpl; [discriminate|].
  destruct (Ascii.eqb a c); [discriminate|].
  destruct (split c rest); discriminate.
Qed.

(** A string without the separator is its own single piece. *)
Lemma split_free (s : string) : free_of c s = true -> split c s = [s].
Proof.
  induction s as [|a rest IH]; simpl; [reflexivity|].
  intros H. apply andb_true_iff in H as [Ha Hrest].
  apply negb_true_iff in Ha. rewrite Ha, (IH Hrest). reflexivity.
Qed.

(** Splitting distributes over a separator between two strings. *)
Lemma split_app_sep (a b : string) :
  split c (a ++ String c b) = (split c a ++ split c b)%list.
Proof.
  induction a as [|x rest IH]; simpl.
  - rewrite Ascii.eqb_refl. reflexivity.
  - destruct (Ascii.eqb x c); [now rewrite IH|].
    rewrite IH. destruct (split c rest) eqn:E; [|reflexivity].
    now destruct (split_not_nil rest).
Qed.

Lemma concat_cons (x y : string) (l : list string) :
  concat (String c EmptyString) (x :: y :: l)
  = x ++ String c (concat (String c EmptyString) (y :: l)).
Proof. reflexivity. Qed.

(** Joining cells that hold no separator and splitting again gives the
    cells back. *)
Lemma split_join (cells : list string) :
  cells <> [] ->
  Forall (fun s => free_of c s = true) cells ->
  split c (join (String c EmptyString) cells) = cells.
Proof.
  unfold join. intros Hne Hall.
  induction Hall as [|x l Hx Hl IH]; [congruence|].
  destruct l as [|y l].
  - simpl. now apply split_free.
  - rewrite concat_cons, split_app_sep, (split_free x Hx), IH by discriminate.
    reflexivity.
Qed.

(** A first cell may hold separators of its own: its pieces come first,
    the other cells follow unchanged. *)
Lemma split_join_after (first : string) (cells : list string) :
  cells <> [] ->
  Forall (fun s => free_of c s = true) cells ->
  split c (join (String c EmptyString) (first :: cells))
  = (split c first ++ cells)%list.
Proof.
  intros Hne Hall. unfold join.
  destruct cells as [|y l]; [congruence|].
  rewrite concat_cons, split_app_sep.
  f_equal. now apply split_join.
Qed.

Lemma free_of_app (a b : string) :
  free_of c (a ++ b) = free_of c a && free_of c b.
Proof.
  induction a as [|x rest IH]; simpl; [reflexivity|].
  now rewrite IH, andb_assoc.
Qed.

Lemma free_of_substring (s : string) :
  free_of c s = true -> forall n m, free_of c (substring n m s) = true.
Proof.
  induction s as [|x rest IH]; intros H n m.
  - now destruct n, m.
  - simpl in H. apply andb_true_iff in H as [Hx Hrest].
    destruct n as [|n]; simpl; [destruct m as [|m]; simpl|]; auto.
    now rewrite Hx, IH.
Qed.
End SplitJoin.

(** ** The text of a number holds neither a comma nor a line break *)

Lemma clean_app (a b : string) :
  clean a = true -> clean b = true -> clean (a ++ b) = true.
Proof.
  unfold clean. rewrite !free_of_app. intros Ha Hb.
  apply andb_true_iff in Ha as [-> ->]. apply andb_true_iff in Hb as [-> ->].
  reflexivity.
Qed.

Lemma clean_substring (s : string) (n m : nat) :
  clean s = true -> clean (substring n m s) = true.
Proof.
  unfold clean. intros H. apply andb_true_iff in H as [H1 H2].
  now rewrite !free_of_substring.
Qed.

Lemma clean_uint (d : Decimal.uint) :
  clean (NilEmpty.string_of_uint d) = true.
Proof. induction d; simpl; auto. Qed.

Lemma clean_digits (n : Z) : clean (digits n) = true.
Proof.
  unfold digits, NilZero.string_of_uint.
  destruct (N.to_uint (Z.to_N n)) eqn:E; try reflexivity;
    rewrite <- E; apply clean_uint.
Qed.

Lemma clean_zeros (n : nat) : clean (zeros n) = true.
Proof. induction n; simpl; auto. Qed.

Create HintDb clean_db.
#[local] Hint Resolve clean_app clean_substring clean_digits clean_zeros
  : clean_db.

Lemma clean_layout (s k n : Z) : clean (layout s k n) = true.
Proof.
  unfold layout.
  repeat match goal with
         | |- context [if ?b then _ else _] => destruct b
         end;
    repeat (apply clean_app; auto with clean_db).
Qed.

Lemma clean_Number_toString (x : float) : clean (Number_toString x) = true.
Proof.
  unfold Number_toString.
  destruct (Prim2SF x) as [| [|] | | sign m e]; try reflexivity.
  destruct (shortest (Z.pos m) e 16 1) as [[s k] n].
  apply clean_app; [now destruct sign | apply clean_layout].
Qed.

Lemma clean_join_cell (v : Value) :
  match v with VString s => clean s = true | _ => True end ->
  clean (join_cell v) = true.
Proof.
  destruct v; simpl; auto. intros _. apply clean_Number_toString.
Qed.

(** ** Sorting *)

Section SortFacts.
Context {A : Type} (key : A -> Z).

Lemma insert_perm (x : A) (l : list A) :
  Permutation (x :: l) (insert (descending_by key) x l).
Proof.
  induction l as [|y l IH]; simpl; [reflexivity|].
  destruct (0 <? descending_by key x y); [|reflexivity].
  rewrite perm_swap. now apply perm_skip.
Qed.

Lemma sort_perm (l : list A) :
  Permutation l (Array_sort (descending_by key) l).
Proof.
  induction l as [|x l IH]; simpl; [constructor|].
  rewrite <- insert_perm. now apply perm_skip.
Qed.

Lemma insert_descending (x : A) (l : list A) :
  descending key l -> descending key (insert (descending_by key) x l).
Proof.
  unfold descending, descending_by.
  induction 1 as [|y l Hl IH Hy]; simpl.
  - repeat constructor.
  - destruct (0 <? key y - key x) eqn:E.
    + apply Z.ltb_lt in E. constructor; [exact IH|].
      apply (Permutation_Forall (insert_perm x l)).
      constructor; [lia | exact Hy].
    + apply Z.ltb_ge in E. constructor; [now constructor|].
      constructor; [lia|].
      eapply Forall_impl; [|exact Hy]. simpl. intros a Ha. lia.
Qed.

Lemma sort_descending (l : list A) :
  descending key (Array_sort (descending_by key) l).
Proof.
  induction l as [|x l IH]; simpl; [constructor|].
  now apply insert_descending.
Qed.

(** Stability: among the elements of one key the order is the input's. *)
Lemma insert_stable (t : Z) (x : A) (l : list A) :
  descending key l ->
  filter (has_key key t) (insert (descending_by key) x l)
  = filter (has_key key t) (x :: l).
Proof.
  unfold descending, descending_by, has_key.
  induction 1 as [|y l Hl IH Hy]; [reflexivity|].
  cbn [insert]. destruct (0 <? key y - key x) eqn:E; [|reflexivity].
  apply Z.ltb_lt in E. cbn [filter] in *. rewrite IH.
  destruct (key x =? t) eqn:Ex, (key y =? t) eqn:Ey; try reflexivity.
  apply Z.eqb_eq in Ex, Ey. lia.
Qed.

Lemma sort_stable (t : Z) (l : list A) :
  filter (has_key key t) (Array_sort (descending_by key) l)
  = filter (has_key key t) l.
Proof.
  induction l as [|x l IH]; [reflexivity|].
  cbn [Array_sort fold_right].
  change (fold_right (insert (descending_by key)) [] l)
    with (Array_sort (descending_by key) l).
  rewrite insert_stable by apply sort_descending.
  cbn [filter]. now rewrite IH.
Qed.
End SortFacts.

(* ================================================================== *)
(** * Facts about the component *)
(* ================================================================== *)

Import App Described.

(** ** What a refresh cycle does to the state *)

(** [checkAlerts] writes the two alert cells and nothing else, and returns. *)
Lemma checkAlerts_frame (latest : option Reading) (s : State) :
  fst (checkAlerts latest s) = Normal tt /\
  data (snd (checkAlerts latest s)) = data s /\
  error (snd (checkAlerts latest s)) = error s /\
  lastUpdate (snd (checkAlerts latest s)) = lastUpdate s /\
  loading (snd (checkAlerts latest s)) = loading s /\
  darkMode (snd (checkAlerts latest s)) = darkMode s.
Proof.
  destruct latest as [r|]; unfold checkAlerts; [|cbn; tauto].
  destruct (0 <? List.length (alerts_of r))%nat; cbn; tauto.
Qed.

(** With nothing to look at, [checkAlerts] leaves the state as it is. *)
Lemma checkAlerts_undefined (s : State) : checkAlerts None s = (Normal tt, s).
Proof. reflexivity. Qed.

Lemma delivers_delivered (f : Completion Response) (rs : list Reading) :
  delivers f rs <-> delivered f = Some rs.
Proof.
  split.
  - intros [response l Hok Hjson | response l Hok Hjson]; simpl;
      now rewrite Hok, Hjson.
  - destruct f as [response|m]; simpl; [|discriminate].
    destruct (ok response) eqn:Hok; [|discriminate].
    destruct (json response) as [[| | | |l|[| |[| | | |l|]]]|m] eqn:Hjson;
      try discriminate; intros [= <-].
    + now apply top_level_sequence.
    + now apply body_sequence.
Qed.

Lemma ingest_spec (elements : list Reading) (now : Z) (s : State) :
  fst (ingest elements now s) = Normal tt /\
  data (snd (ingest elements now s)) = Array_sort by_timestamp_desc elements /\
  error (snd (ingest elements now s)) = None /\
  lastUpdate (snd (ingest elements now s)) = Some now /\
  loading (snd (ingest elements now s)) = loading s /\
  darkMode (snd (ingest elements now s)) = darkMode s.
Proof.
  unfold ingest. cbn.
  match goal with
  | |- context [checkAlerts ?l ?s0] =>
      destruct (checkAlerts_frame l s0) as (H1 & H2 & H3 & H4 & H5 & H6)
  end.
  repeat split; assumption.
Qed.

(** A cycle that delivers a sequence is [ingest] followed by
    [setLoading(false)]. *)
Lemma fetchData_delivers (f : Completion Response) (rs : list Reading)
    (now : Z) (s : State) :
  delivered f = Some rs ->
  fetchData f now s =
  (Normal tt, snd (setLoading false (snd (ingest rs now s)))).
Proof.
  intros H. apply delivers_delivered in H.
  destruct H as [response l Hok Hjson | response l Hok Hjson];
    unfold fetchData, try_catch_finally, ingest, bind, await;
    rewrite Hok, Hjson; cbn;
    match goal with
    | |- context [checkAlerts ?latest ?s0] =>
        destruct (checkAlerts_frame latest s0) as (Hn & _);
        destruct (checkAlerts latest s0) as [[[]|m] s']
    end; cbn in Hn |- *; congruence.
Qed.

(** Any other cycle leaves the state as it was, up to the error it
    records and the loading flag. *)
Lemma fetchData_other (f : Completion Response) (now : Z) (s : State) :
  delivered f = None ->
  exists e : option string,
    fetchData f now s =
    (Normal tt,
     {| data := data s; loading := false; error := e;
        lastUpdate := lastUpdate s; darkMode := darkMode s;
        showAlert := showAlert s; alertMessage := alertMessage s |}).
Proof.
  unfold delivered, fetchData, try_catch_finally, bind, await, ok.
  destruct f as [[st [j|m]]|m]; cbn [status json]; [| |cbn; eauto].
  - destruct ((200 <=? st)%N && (st <=? 299)%N); [|cbn; eauto].
    destruct j as [| | | |l|[| |[| | | |l|]]]; cbn; eauto; discriminate.
  - destruct ((200 <=? st)%N && (st <=? 299)%N); cbn; eauto.
Qed.

(** [fetchData] always completes normally: nothing is thrown past it. *)
Lemma fetchData_returns (f : Completion Response) (now : Z) (s : State) :
  fst (fetchData f now s) = Normal tt.
Proof.
  destruct (delivered f) as [rs|] eqn:E.
  - now rewrite (fetchData_delivers f rs now s E).
  - destruct (fetchData_other f now s E) as [e ->]. reflexivity.
Qed.

(** The working set after a cycle. *)
Lemma refresh_data (f : Completion Response) (now : Z) (s : State) :
  data (refresh f now s) =
  match delivered f with
  | Some rs => Array_sort by_timestamp_desc rs
  | None => data s
  end.
Proof.
  unfold refresh. destruct (delivered f) as [rs|] eqn:E.
  - rewrite (fetchData_delivers f rs now s E). cbn.
    apply (ingest_spec rs now s).
  - destruct (fetchData_other f now s E) as [e ->]. reflexivity.
Qed.

Lemma refresh_error_delivered (f : Completion Response) (rs : list Reading)
    (now : Z) (s : State) :
  delivered f = Some rs -> error (refresh f now s) = None.
Proof.
  intros E. unfold refresh. rewrite (fetchData_delivers f rs now s E). cbn.
  apply (ingest_spec rs now s).
Qed.

(* ================================================================== *)
(** * The claims *)
(* ================================================================== *)

Import Sample.

(** ** C1: a payload that is an empty sequence *)

(** C1, refuted as stated.  With earlier data and an earlier error on
    display, a cycle that receives an empty sequence (as the text of [body],
    or at the top level) changes both the working set and the last error. *)
Lemma empty_sequence_not_ignored :
  data (refresh (respond (JObject (BodyParsed (JArray [])))) 5000 stale)
    <> data stale /\
  error (refresh (respond (JObject (BodyParsed (JArray [])))) 5000 stale)
    <> error stale /\
  data (refresh (respond (JArray [])) 5000 stale) <> data stale /\
  error (refresh (respond (JArray [])) 5000 stale) <> error stale.
Proof. cbn. repeat split; discriminate. Qed.

(** C1, as the component behaves.  For every prior state, a successful
    cycle whose payload is an empty sequence replaces the working set by
    the empty one, clears the last error, stamps the update time and ends
    loading; the alert cells are left as they were, since [checkAlerts]
    returns at once when there is no first reading. *)
Theorem empty_sequence_is_ingested (s : State) (now : Z)
    (response : Response) (j : Json) :
  ok response = true ->
  json response = Normal j ->
  j = JArray [] \/ j = JObject (BodyParsed (JArray [])) ->
  refresh (Normal response) now s =
  {| data := []; loading := false; error := None; lastUpdate := Some now;
     darkMode := darkMode s; showAlert := showAlert s;
     alertMessage := alertMessage s |}.
Proof.
  intros Hok Hjson Hshape.
  unfold refresh, fetchData, try_catch_finally, bind, await.
  rewrite Hok, Hjson. destruct Hshape as [-> | ->]; reflexivity.
Qed.

Lemma empty_sequence_is_ingested_witness :
  refresh (respond (JObject (BodyParsed (JArray [])))) 5000 stale =
  {| data := []; loading := false; error := None; lastUpdate := Some 5000;
     darkMode := false; showAlert := true; alertMessage := humidity_low |}.
Proof.
  apply (empty_sequence_is_ingested stale 5000
           {| status := 200;
              json := Normal (JObject (BodyParsed (JArray []))) |}
           (JObject (BodyParsed (JArray [])))).
  - reflexivity.
  - reflexivity.
  - right. reflexivity.
Defined.

(** ** C2: statistics of a field nobody reports *)

(** On an empty working set the result is the defined-zero one. *)
Lemma calculateStats_empty (field : Field) :
  calculateStats [] field = zero_stats.
Proof. reflexivity. Qed.

(** On a non-empty working set in which no reading has the field, the
    filtered [values] is empty and the three results are the texts of
    [Infinity], [-Infinity] and [NaN]. *)
Lemma calculateStats_no_values (readings : list Reading) (field : Field) :
  readings <> [] ->
  Forall (fun d => is_present (get d field) = false) readings ->
  calculateStats readings field =
  {| min := VString "Infinity"; max := VString "-Infinity";
     avg := VString "NaN" |}.
Proof.
  intros Hne Hall. unfold calculateStats.
  assert (filter is_present (map (fun d => get d field) readings) = []) as ->.
  { clear Hne. induction Hall as [|x xs Hx _ IH]; [reflexivity|].
    cbn [map filter]. now rewrite Hx. }
  destruct readings; [congruence | reflexivity].
Qed.

(** C2, at the failing input.  One reading without a temperature: zero
    readings have the field, yet [calculateStats] does not return the
    defined-zero result. *)
Theorem calculateStats_field_absent_everywhere :
  calculateStats [no_temperature] F_temperature =
    {| min := VString "Infinity"; max := VString "-Infinity";
       avg := VString "NaN" |} /\
  calculateStats [no_temperature] F_temperature <> zero_stats.
Proof. split; [reflexivity | discriminate]. Qed.

(** ** C3: the alert rules *)

(** Where none of the three tested fields is [null], the alerts are the
    rules of the table that hold, in its order. *)
Lemma alerts_of_evaluate (r : Reading) :
  soil_moisture r <> Null ->
  temperature r <> Null ->
  humidity r <> Null ->
  alerts_of r = evaluate r.
Proof.
  unfold alerts_of, evaluate, alert_table, push_if, lt, gt.
  destruct r as [t id [| |soil] [| |temp] [| |hum] lux]; cbn [soil_moisture
    temperature humidity ToNumber]; intros H1 H2 H3; try congruence;
    cbn [filter map fst snd present_below present_above soil_moisture
         temperature humidity];
    change (nan <? 30)%float with false;
    change (30 <? nan)%float with false;
    change (nan <? 15)%float with false;
    change (nan <? 40)%float with false;
    repeat match goal with
           | |- context [(?a <? ?b)%float] => destruct (a <? b)%float
           end; reflexivity.
Qed.

(** C3, at the failing input.  A reading whose soil moisture is [null],
    with temperature and humidity in range: no rule of the table holds, yet
    the low-soil-moisture alert is raised and shown. *)
Theorem checkAlerts_null_soil_moisture :
  evaluate soil_null = [] /\
  alerts_of soil_null = [soil_low] /\
  showAlert (snd (checkAlerts (Some soil_null) initial)) = true /\
  alertMessage (snd (checkAlerts (Some soil_null) initial)) = soil_low.
Proof. repeat split. Qed.

(** The scenario of the specification: soil 25, temperature 32 and
    humidity 35 raise three alerts, joined in table order. *)
Example alerts_scenario :
  alerts_of (reading 100 (Num 25) (Num 32) (Num 35))
    = [soil_low; temperature_high; humidity_low] /\
  evaluate (reading 100 (Num 25) (Num 32) (Num 35))
    = [soil_low; temperature_high; humidity_low].
Proof. split; reflexivity. Qed.

(** ** C6: the trend *)

(** The scenario of the specification: 50 after 45 is [up]. *)
Example trend_scenario :
  getTrend [reading 200 (Num 50) Undefined Undefined;
            reading 100 (Num 45) Undefined Undefined] F_soil_moisture = "up".
Proof. reflexivity. Qed.


(** Where neither of the two compared values is [null], [getTrend] is the
    trend of the specification. *)
Lemma getTrend_trend (readings : list Reading) (field : Field) :
  (forall d, nth_error readings 0 = Some d -> get d field <> Null) ->
  (forall d, nth_error readings 1 = Some d -> get d field <> Null) ->
  getTrend readings field = trend field readings.
Proof.
  intros H0 H1. destruct readings as [|d0 [|d1 l]]; try reflexivity.
  specialize (H0 d0 eq_refl). specialize (H1 d1 eq_refl).
  unfold getTrend, trend, gt, lt. cbn [List.length Nat.ltb Nat.leb].
  destruct (get d0 field) as [| |a], (get d1 field) as [| |b];
    try congruence; cbn [ToNumber].
  - reflexivity.
  - now rewrite ltb_nan_l, ltb_nan_r.
  - change (nan + 1)%float with nan. change (nan - 1)%float with nan.
    now rewrite ltb_nan_l, ltb_nan_r.
  - reflexivity.
Qed.

(** C6, at the failing input.  The latest soil moisture is [null] and the
    previous one is 45: a value is absent, so the trend of the
    specification is [stable], yet [getTrend] answers [down]. *)
Theorem getTrend_null_latest :
  trend F_soil_moisture [soil_null; older] = "stable" /\
  getTrend [soil_null; older] F_soil_moisture = "down".
Proof. split; reflexivity. Qed.

(** ** C4: overlapping refresh cycles *)

Lemma run_cons (s : State) (c : Completed) (rest : list Completed) :
  run s (c :: rest) = run (complete s c) rest.
Proof. reflexivity. Qed.

(** C4, refuted as stated.  The run dispatched second completes first and
    the run dispatched first completes after it: the late, stale result is
    applied, and the working set is not that of the latest dispatch. *)
Lemma stale_completion_is_applied :
  (seq first_dispatched < seq second_dispatched)%nat /\
  data (run initial [second_dispatched]) = [newer] /\
  data (run initial [second_dispatched; first_dispatched]) = [older] /\
  data (run initial [second_dispatched; first_dispatched]) <> [newer].
Proof. cbn. repeat split; [lia | discriminate]. Qed.

(** C4, as the component behaves.  No run carries a sequence number and
    no completion is discarded: whatever the order of dispatch, the working
    set after any series of completions is the sorted sequence of the last
    run to complete with one, and the prior working set if none did. *)
Theorem last_completion_wins (s : State) (completions : list Completed) :
  data (run s completions) =
  match last_delivered completions with
  | Some rs => Array_sort by_timestamp_desc rs
  | None => data s
  end.
Proof.
  revert s. induction completions as [|c rest IH]; intros s; [reflexivity|].
  rewrite run_cons, IH. cbn [last_delivered].
  destruct (last_delivered rest); [reflexivity|].
  unfold complete. apply refresh_data.
Qed.

(** ** C5: the order of the working set *)

(** C5.  For every non-empty sequence of readings a cycle delivers, the
    working set it leaves is sorted by timestamp, greatest first, is a
    permutation of the sequence, and keeps the readings of one timestamp in
    the order they came in. *)
Theorem ingested_sorted_stable (f : Completion Response) (rs : list Reading)
    (now : Z) (s : State) :
  delivers f rs ->
  rs <> [] ->
  descending timestamp (data (refresh f now s)) /\
  Permutation rs (data (refresh f now s)) /\
  forall t : Z,
    filter (has_key timestamp t) (data (refresh f now s))
    = filter (has_key timestamp t) rs.
Proof.
  intros Hf _. apply delivers_delivered in Hf.
  rewrite refresh_data, Hf. unfold by_timestamp_desc.
  split; [apply sort_descending|].
  split; [apply sort_perm | intros t; apply sort_stable].
Qed.

Lemma ingested_sorted_stable_witness :
  data (refresh (respond (JArray unsorted)) 5000 initial)
    = [newer; same_time; older] /\
  descending timestamp
    (data (refresh (respond (JArray unsorted)) 5000 initial)) /\
  filter (has_key timestamp 200)
    (data (refresh (respond (JArray unsorted)) 5000 initial))
    = [newer; same_time].
Proof.
  split; [reflexivity|].
  destruct (ingested_sorted_stable
              (respond (JArray unsorted))
              unsorted 5000 initial) as (Hsorted & _ & Hstable).
  - apply top_level_sequence; reflexivity.
  - discriminate.
  - split; [exact Hsorted | exact (Hstable 200)].
Defined.

(** ** C7: failed cycles *)

(** C7.  For every prior state, a cycle that ends in a transport failure
    or a status outside 200-299 returns normally, records the transport
    message or the status-derived message as the last error, and leaves
    the working set untouched; any later cycle that delivers a sequence
    clears the last error and replaces the working set. *)
Theorem failure_recorded_then_cleared (f : Completion Response)
    (message : string) (now : Z) (s : State) :
  fails_with f message ->
  fst (fetchData f now s) = Normal tt /\
  error (refresh f now s) = Some message /\
  data (refresh f now s) = data s /\
  forall (g : Completion Response) (rs : list Reading) (later : Z),
    delivers g rs ->
    error (refresh g later (refresh f now s)) = None /\
    data (refresh g later (refresh f now s)) = Array_sort by_timestamp_desc rs.
Proof.
  intros Hf. split; [apply fetchData_returns|].
  split; [|split].
  - destruct Hf as [m | response Hok]; unfold refresh, fetchData,
      try_catch_finally, bind, await; [reflexivity|].
    now rewrite Hok.
  - rewrite refresh_data.
    destruct Hf as [m | response Hok]; cbn; [reflexivity|].
    now rewrite Hok.
  - intros g rs later Hg. apply delivers_delivered in Hg. split.
    + now apply refresh_error_delivered with (rs := rs).
    + now rewrite refresh_data, Hg.
Qed.

Lemma failure_recorded_then_cleared_witness :
  error (refresh (Normal unavailable) 5000 stale)
    = Some "HTTP error! status: 503" /\
  data (refresh (Normal unavailable) 5000 stale)
    = [older] /\
  error (refresh (respond (JArray [newer])) 10000
           (refresh (Normal unavailable)
                    5000 stale))
    = None.
Proof.
  destruct (failure_recorded_then_cleared
              (Normal unavailable)
              "HTTP error! status: 503" 5000 stale
              (status_failure unavailable
                              eq_refl))
    as (_ & Herror & Hdata & Hlater).
  split; [exact Herror|]. split; [exact Hdata|].
  apply (Hlater (respond (JArray [newer])) [newer] 10000).
  apply top_level_sequence; reflexivity.
Defined.

(** ** C8: payloads of another shape *)

(** C8, refuted as stated.  A decoded [null], and an object whose [body]
    is not valid JSON, are neither a sequence nor an object whose [body]
    parses to one; each of them changes the last error. *)
Lemma other_shape_records_error :
  error initial = None /\
  error (refresh (respond JNull) 5000 initial) = Some null_body_message /\
  error (refresh (respond JNull) 5000 initial) <> error initial /\
  error (refresh (respond bad_body) 5000 initial)
    = Some "Unexpected end of JSON input" /\
  error (refresh (respond bad_body) 5000 initial) <> error initial.
Proof. cbn. repeat split; discriminate. Qed.

(** C8, as the component behaves.  For every prior state and every decoded
    value that is a number, a string, a boolean, an object without a
    truthy [body], or an object whose [body] parses to something that is
    not a sequence, the cycle returns normally and changes nothing but the
    loading flag: working set, last error, update time and alerts stay.
    For an object whose [body] fails to parse, the parse error becomes the
    last error and the working set stays. *)
Theorem other_shape_leaves_state (response : Response) (j : Json)
    (now : Z) (s : State) :
  ok response = true ->
  json response = Normal j ->
  (carries_nothing j = true ->
   fetchData (Normal response) now s =
   (Normal tt,
    {| data := data s; loading := false; error := error s;
       lastUpdate := lastUpdate s; darkMode := darkMode s;
       showAlert := showAlert s; alertMessage := alertMessage s |})) /\
  (forall message : string,
     j = JObject (BodyInvalid message) ->
     fetchData (Normal response) now s =
     (Normal tt,
      {| data := data s; loading := false; error := Some message;
         lastUpdate := lastUpdate s; darkMode := darkMode s;
         showAlert := showAlert s; alertMessage := alertMessage s |})).
Proof.
  intros Hok Hjson.
  unfold fetchData, try_catch_finally, bind, await. rewrite Hok, Hjson.
  split.
  - destruct j as [| | | |l|[| |[| | | |l|]]]; cbn; intros H;
      try discriminate; reflexivity.
  - intros message ->. reflexivity.
Qed.

Lemma other_shape_leaves_state_witness :
  refresh (respond (JObject BodyFalsy)) 5000 stale = stale /\
  error (refresh (respond bad_body) 5000 stale)
    = Some "Unexpected end of JSON input".
Proof.
  split.
  - unfold refresh, respond.
    rewrite (proj1 (other_shape_leaves_state
                      {| status := 200; json := Normal (JObject BodyFalsy) |}
                      (JObject BodyFalsy) 5000 stale eq_refl eq_refl) eq_refl).
    reflexivity.
  - unfold refresh, respond.
    rewrite (proj2 (other_shape_leaves_state
                      {| status := 200; json := Normal bad_body |}
                      bad_body 5000 stale eq_refl eq_refl)
                   "Unexpected end of JSON input" eq_refl).
    reflexivity.
Defined.

(** ** C9 and C10: the export *)

Lemma free_of_concat (c : ascii) (sep : string) (l : list string) :
  free_of c sep = true ->
  Forall (fun x => free_of c x = true) l ->
  free_of c (concat sep l) = true.
Proof.
  intros Hsep Hall. induction Hall as [|x xs Hx Hxs IH]; [reflexivity|].
  destruct xs as [|y ys]; [exact Hx|].
  change (concat sep (x :: y :: ys)) with (x ++ sep ++ concat sep (y :: ys)).
  now rewrite !free_of_app, Hx, Hsep, IH.
Qed.

(** The cells after the date are the texts of the five fields, empty
    where the field is absent. *)
Lemma cells_join_cell (d : Reading) :
  map join_cell
    [ string_value (device_id d); to_value (soil_moisture d);
      to_value (temperature d); to_value (humidity d);
      to_value (light_lux d) ]
  = cells d.
Proof.
  unfold cells, field_text.
  destruct (device_id d), (soil_moisture d), (temperature d), (humidity d),
    (light_lux d); reflexivity.
Qed.

Lemma clean_field_text (v : Measurement) : clean (field_text v) = true.
Proof. destruct v; try reflexivity. apply clean_Number_toString. Qed.

Lemma clean_cells (d : Reading) :
  clean_id d -> Forall (fun x => clean x = true) (cells d).
Proof.
  unfold clean_id, cells. intros Hid.
  repeat constructor; try apply clean_field_text.
  now destruct (device_id d).
Qed.

Lemma clean_free (c : ascii) (x : string) :
  c = comma \/ c = newline -> clean x = true -> free_of c x = true.
Proof.
  unfold clean. intros [-> | ->] H; apply andb_true_iff in H; tauto.
Qed.

Section ExportFacts.
Variable toLocaleString : Z -> string.

(** A row splits at its commas into the pieces of the date followed by
    the five cells. *)
Lemma row_split (d : Reading) :
  clean_id d ->
  split comma (row toLocaleString d)
  = (split comma (toLocaleString (timestamp d)) ++ cells d)%list.
Proof.
  intros Hid. unfold row, Array_join.
  rewrite map_cons, cells_join_cell.
  apply (split_join_after comma); [discriminate|].
  eapply Forall_impl; [|apply (clean_cells d Hid)].
  intros x. apply clean_free. now left.
Qed.

(** A row holds no line break when its date holds none. *)
Lemma row_one_line (d : Reading) :
  clean_id d ->
  free_of newline (toLocaleString (timestamp d)) = true ->
  free_of newline (row toLocaleString d) = true.
Proof.
  intros Hid Hdate. unfold row, Array_join, join.
  apply free_of_concat; [reflexivity|].
  rewrite map_cons, cells_join_cell. constructor; [exact Hdate|].
  eapply Forall_impl; [|apply (clean_cells d Hid)].
  intros x. apply clean_free. now right.
Qed.
End ExportFacts.

Lemma clean_pad2 (n : Z) : clean (Host.pad2 n) = true.
Proof.
  unfold Host.pad2. destruct (n <? 10); [apply clean_app|];
    auto using clean_digits.
Qed.

(** The sv-SE rendering of a date holds neither a comma nor a line
    break. *)
Lemma clean_sv_SE (t : Z) : clean (Host.toLocaleString_sv_SE t) = true.
Proof.
  unfold Host.toLocaleString_sv_SE.
  destruct (Host.civil_from_days (t / 1000 / 86400)) as [[y m] d].
  repeat (apply clean_app; auto using clean_digits, clean_pad2).
Qed.




(** C10.  When the working set is empty, [exportToCSV] returns without
    building any file, not even one with the header alone, and leaves the
    state as it is. *)
Theorem exportToCSV_empty_set (toLocaleString : Z -> string)
    (nowISO : string) (s : State) :
  data s = [] ->
  exportToCSV toLocaleString nowISO s = (Normal None, s).
Proof. intros H. unfold exportToCSV. now rewrite H. Qed.

Lemma exportToCSV_empty_set_witness :
  exportToCSV sample_toLocaleString clock initial = (Normal None, initial).
Proof.
  apply (exportToCSV_empty_set sample_toLocaleString clock initial).
  reflexivity.
Defined.

(* ================================================================== *)
(** * Further properties of the component *)
(* ================================================================== *)

Import Shown.

(** ** Numbers on the two sides of a gap *)

(** Nothing is above the greater and below the lesser of two positive
    numbers of different binary exponents. *)
Lemma SFltb_gap (mlo mhi : positive) (elo ehi : Z) (x : spec_float) :
  elo < ehi ->
  SFltb (S754_finite false mhi ehi) x = true ->
  SFltb x (S754_finite false mlo elo) = false.
Proof.
  intros Hgap. unfold SFltb, SFcompare.
  destruct x as [s|s| |s m e]; try destruct s; try reflexivity;
    try discriminate.
  destruct (Z.compare_spec ehi e) as [He|He|He]; try discriminate;
    destruct (Z.compare_spec e elo) as [Hl|Hl|Hl]; try reflexivity; lia.
Qed.

Lemma above_30_not_below_15 (x : float) :
  (30 <? x)%float = true -> (x <? 15)%float = false.
Proof.
  rewrite !FloatAxioms.ltb_spec.
  change (Prim2SF 30) with (S754_finite false 8444249301319680 (-48)).
  change (Prim2SF 15) with (S754_finite false 8444249301319680 (-49)).
  apply SFltb_gap. lia.
Qed.

Lemma above_70_not_below_40 (x : float) :
  (70 <? x)%float = true -> (x <? 40)%float = false.
Proof.
  rewrite !FloatAxioms.ltb_spec.
  change (Prim2SF 70) with (S754_finite false 4925812092436480 (-46)).
  change (Prim2SF 40) with (S754_finite false 5629499534213120 (-47)).
  apply SFltb_gap. lia.
Qed.

(** ** The alert rules *)

(** Membership in the array [alerts], rule by rule. *)
Lemma alerts_of_In (r : Reading) (message : string) :
  In message (alerts_of r) <->
  (message = soil_low /\ lt (ToNumber (soil_moisture r)) 30 = true) \/
  (message = temperature_high /\ gt (ToNumber (temperature r)) 30 = true) \/
  (message = temperature_low /\ lt (ToNumber (temperature r)) 15 = true) \/
  (message = humidity_low /\ lt (ToNumber (humidity r)) 40 = true).
Proof.
  unfold alerts_of, push_if.
  destruct (lt (ToNumber (soil_moisture r)) 30),
    (gt (ToNumber (temperature r)) 30),
    (lt (ToNumber (temperature r)) 15),
    (lt (ToNumber (humidity r)) 40); cbn;
    intuition (subst; try discriminate; auto).
Qed.

(** X1.  The high-temperature and the low-temperature alert never fire for one
    reading, so at most three of the four alerts are raised together. *)
Theorem temperature_alerts_exclusive (r : Reading) :
  ~ (In temperature_high (alerts_of r) /\ In temperature_low (alerts_of r)) /\
  (List.length (alerts_of r) <= 3)%nat.
Proof.
  assert (Hex : gt (ToNumber (temperature r)) 30 = true ->
                lt (ToNumber (temperature r)) 15 = false)
    by apply above_30_not_below_15.
  split.
  - rewrite !alerts_of_In. intros [Hhigh Hlow].
    destruct Hhigh as [[E _]|[[_ H1]|[[E _]|[E _]]]]; try discriminate E.
    destruct Hlow as [[E _]|[[E _]|[[_ H2]|[E _]]]]; try discriminate E.
    rewrite (Hex H1) in H2. discriminate.
  - unfold alerts_of, push_if.
    destruct (gt (ToNumber (temperature r)) 30);
      [rewrite (Hex eq_refl)|];
      destruct (lt (ToNumber (soil_moisture r)) 30);
      try destruct (lt (ToNumber (temperature r)) 15);
      destruct (lt (ToNumber (humidity r)) 40); cbn; lia.
Qed.

(** X2.  A missing measurement compares as NaN: every band test fails, so it is
    shown in the best band (green status, green bar, [Optimal], [Normal])
    and raises no alert, whatever the thresholds and the colour mode; a
    reading without soil moisture, temperature and humidity raises no
    alert at all. *)
Theorem missing_measurement_shown_as_good (darkMode : bool)
    (thresholds : Thresholds) (latestReading : option Reading) :
  color_band (getStatusColor darkMode Undefined thresholds) = Some Green /\
  bg_band (getStatusBg darkMode Undefined thresholds) = Some Green /\
  (chain latestReading soil_moisture = Undefined ->
   soil_bar latestReading = "bg-green-500") /\
  (chain latestReading temperature = Undefined ->
   temperature_line latestReading = "Optimal") /\
  (chain latestReading humidity = Undefined ->
   humidity_line latestReading = "Normal") /\
  (forall r : Reading,
     soil_moisture r = Undefined -> temperature r = Undefined ->
     humidity r = Undefined -> alerts_of r = []).
Proof.
  unfold getStatusColor, getStatusBg, soil_bar, temperature_line,
    humidity_line, alerts_of, push_if, lt, gt.
  cbn [ToNumber]. rewrite !ltb_nan_l.
  repeat split.
  - now destruct darkMode.
  - now destruct darkMode.
  - intros ->. reflexivity.
  - intros ->. reflexivity.
  - intros ->. reflexivity.
  - intros r -> -> ->. reflexivity.
Qed.

(** X3.  The text colour and the background of a status always show the same
    band, the colour mode changes the shade and never the band, and the
    band is red exactly when the value is below the low threshold. *)
Theorem status_bands_agree (darkMode : bool) (value : Measurement)
    (thresholds : Thresholds) :
  color_band (getStatusColor darkMode value thresholds)
    = bg_band (getStatusBg darkMode value thresholds) /\
  color_band (getStatusColor darkMode value thresholds)
    = color_band (getStatusColor (negb darkMode) value thresholds) /\
  (color_band (getStatusColor darkMode value thresholds) = Some Red <->
   lt (ToNumber value) (low thresholds) = true).
Proof.
  unfold getStatusColor, getStatusBg.
  destruct (lt (ToNumber value) (low thresholds)),
    (lt (ToNumber value) (medium thresholds)), darkMode; cbn;
    repeat split; intros; congruence.
Qed.

(** X4.  What the cards say about the latest reading is what the alerts say:
    the soil card and the soil bar are red exactly when the low-soil alert
    fires, the temperature line is [Hot] (is [Cold]) exactly when the
    high-temperature (low-temperature) alert fires, and the humidity line
    is [Low] exactly when the low-humidity alert fires. *)
Theorem cards_agree_with_alerts (darkMode : bool) (r : Reading) :
  (color_band (getStatusColor darkMode (soil_moisture r) soil_thresholds)
     = Some Red <-> In soil_low (alerts_of r)) /\
  (soil_bar (Some r) = "bg-red-500" <-> In soil_low (alerts_of r)) /\
  (temperature_line (Some r) = "Hot" <-> In temperature_high (alerts_of r)) /\
  (temperature_line (Some r) = "Cold" <-> In temperature_low (alerts_of r)) /\
  (humidity_line (Some r) = "Low" <-> In humidity_low (alerts_of r)).
Proof.
  pose proof (above_30_not_below_15 (ToNumber (temperature r))) as Htemp.
  pose proof (above_70_not_below_40 (ToNumber (humidity r))) as Hhum.
  rewrite !alerts_of_In.
  unfold getStatusColor, soil_bar, temperature_line, humidity_line,
    soil_thresholds, chain, lt, gt in *. cbn [low medium].
  destruct (ToNumber (soil_moisture r) <? 30)%float;
    destruct (ToNumber (soil_moisture r) <? 50)%float;
    destruct (30 <? ToNumber (temperature r))%float;
    destruct (ToNumber (temperature r) <? 15)%float;
    destruct (70 <? ToNumber (humidity r))%float;
    destruct (ToNumber (humidity r) <? 40)%float;
    destruct darkMode; cbn;
    try (specialize (Htemp eq_refl); discriminate Htemp);
    try (specialize (Hhum eq_refl); discriminate Hhum);
    repeat split; intros;
    repeat match goal with
           | H : _ \/ _ |- _ => destruct H
           | H : _ /\ _ |- _ => destruct H
           end;
    try discriminate; try congruence; auto 10.
Qed.

(** ** The trend icon *)

(** X5.  With fewer than two readings, or when the field is missing from one
    of the two newest readings, the comparisons of [getTrend] all fail and
    the icon is the neutral one. *)
Theorem neutral_icon_when_incomparable (readings : list Reading)
    (field : Field) :
  (List.length readings < 2)%nat \/
  (exists d0 d1 rest,
     readings = d0 :: d1 :: rest /\
     (get d0 field = Undefined \/ get d1 field = Undefined)) ->
  getTrend readings field = "stable" /\
  component (TrendIcon (getTrend readings field)) = "Minus".
Proof.
  intros H.
  assert (Hstable : getTrend readings field = "stable").
  { destruct H as [Hshort | (d0 & d1 & rest & -> & Hmissing)].
    - destruct readings as [|d0 [|d1 rest]]; try reflexivity.
      cbn in Hshort. lia.
    - unfold getTrend, gt, lt. cbn [List.length Nat.ltb Nat.leb].
      destruct Hmissing as [-> | ->]; cbn [ToNumber].
      + now rewrite ltb_nan_l, ltb_nan_r.
      + change (nan + 1)%float with nan. change (nan - 1)%float with nan.
        now rewrite ltb_nan_l, ltb_nan_r. }
  now rewrite Hstable.
Qed.

Lemma neutral_icon_when_incomparable_witness :
  getTrend [no_temperature; older] F_temperature = "stable" /\
  component (TrendIcon (getTrend [no_temperature; older] F_temperature))
    = "Minus".
Proof.
  apply (neutral_icon_when_incomparable [no_temperature; older]
           F_temperature).
  right. exists no_temperature, older, []. split; [reflexivity|].
  left. reflexivity.
Defined.

(** ** Cycles that deliver nothing *)

(** A cycle that delivers no sequence (a failure, a payload of another
    shape, a decoding error) leaves everything but the loading flag and
    the last error as it was, and the last error is the old one or a new
    message, never cleared. *)
Lemma refresh_undelivered (f : Completion Response) (now : Z) (s : State) :
  delivered f = None ->
  exists e : option string,
    (e = error s \/ exists message, e = Some message) /\
    refresh f now s =
    {| data := data s; loading := false; error := e;
       lastUpdate := lastUpdate s; darkMode := darkMode s;
       showAlert := showAlert s; alertMessage := alertMessage s |}.
Proof.
  unfold refresh, delivered, fetchData, try_catch_finally, bind, await, ok.
  destruct f as [[st [j|m]]|m]; cbn [status json]; [| |cbn; eauto 6].
  - destruct ((200 <=? st)%N && (st <=? 299)%N); [|cbn; eauto 6].
    destruct j as [| | | |l|[| |[| | | |l|]]]; cbn; eauto 6; discriminate.
  - destruct ((200 <=? st)%N && (st <=? 299)%N); cbn; eauto 6.
Qed.

(** What the cycle throws is what it records. *)
Lemma refresh_undelivered_error (f : Completion Response) (now : Z)
    (s : State) :
  delivered f = None ->
  error (refresh f now s) =
  match Host.thrown f with
  | Some message => Some message
  | None => error s
  end.
Proof.
  unfold refresh, delivered, Host.thrown, fetchData, try_catch_finally, bind,
    await, ok.
  destruct f as [[st [j|m]]|m]; cbn [status json]; [| |reflexivity].
  - destruct ((200 <=? st)%N && (st <=? 299)%N); [|reflexivity].
    destruct j as [| | | |l|[| |[| | | |l|]]]; cbn; try reflexivity;
      discriminate.
  - destruct ((200 <=? st)%N && (st <=? 299)%N); reflexivity.
Qed.

(** X6.  A cycle that delivers no sequence never re-evaluates the alerts and
    never touches the working set, the update time or the colour mode.
    Its last error is the message it threw, or the error from before when
    it threw nothing.  So an error screen on display stays on display,
    unless the cycle throws an empty message, which the test [if (error)]
    takes for no error. *)
Theorem undelivered_cycle_frame (f : Completion Response) (now : Z)
    (s : State) :
  delivered f = None ->
  data (refresh f now s) = data s /\
  lastUpdate (refresh f now s) = lastUpdate s /\
  showAlert (refresh f now s) = showAlert s /\
  alertMessage (refresh f now s) = alertMessage s /\
  darkMode (refresh f now s) = darkMode s /\
  error (refresh f now s)
    = match Host.thrown f with
      | Some message => Some message
      | None => error s
      end /\
  (truthy (error s) = true ->
   (forall message, Host.thrown f = Some message -> message <> EmptyString) ->
   exists shown : string,
     shown <> EmptyString /\
     error (refresh f now s) = Some shown /\
     render (refresh f now s) = ErrorScreen shown).
Proof.
  intros H. pose proof (refresh_undelivered_error f now s H) as Herror.
  destruct (refresh_undelivered f now s H) as (e & _ & Hstate).
  rewrite Hstate in Herror |- *. cbn [error] in Herror. subst e.
  cbn [data lastUpdate showAlert alertMessage darkMode error].
  repeat split. intros Hshown Hmessage.
  assert (Hnew : exists shown, shown <> EmptyString /\
                   match Host.thrown f with
                   | Some message => Some message
                   | None => error s
                   end = Some shown).
  { destruct (Host.thrown f) as [message|].
    - exists message. split; [now apply Hmessage | reflexivity].
    - unfold truthy in Hshown. destruct (error s) as [old|]; [|discriminate].
      exists old. split; [|reflexivity].
      intros ->. discriminate Hshown. }
  destruct Hnew as (shown & Hne & ->).
  exists shown. split; [exact Hne|]. split; [reflexivity|].
  unfold render, truthy. cbn [loading error].
  now destruct (String.eqb_spec shown EmptyString).
Qed.

Lemma undelivered_cycle_frame_witness :
  data (refresh (respond (JString "maintenance")) 5000 stale) = [older] /\
  error (refresh (respond (JString "maintenance")) 5000 stale)
    = Some "Failed to fetch" /\
  exists shown : string,
    render (refresh (respond (JString "maintenance")) 5000 stale)
    = ErrorScreen shown.
Proof.
  destruct (undelivered_cycle_frame (respond (JString "maintenance"))
              5000 stale eq_refl)
    as (Hdata & _ & _ & _ & _ & Herror & Hscreen).
  split; [exact Hdata|]. split; [exact Herror|].
  destruct Hscreen as (shown & _ & _ & Hrender).
  - reflexivity.
  - intros message Hthrown. discriminate Hthrown.
  - exists shown. exact Hrender.
Defined.

(** The exception: a rejection with an empty message, after an error and
    data were on display, puts the dashboard back with the error field
    set. *)
Example empty_message_is_no_error :
  render (refresh (Throw "Failed to fetch") 5000
            (refresh (respond (JArray [newer])) 1000 initial))
    = ErrorScreen "Failed to fetch" /\
  error (refresh (Throw EmptyString) 10000
           (refresh (Throw "Failed to fetch") 5000
              (refresh (respond (JArray [newer])) 1000 initial)))
    = Some EmptyString /\
  render (refresh (Throw EmptyString) 10000
            (refresh (Throw "Failed to fetch") 5000
               (refresh (respond (JArray [newer])) 1000 initial)))
    = Dashboard (Some newer).
Proof. repeat split. Qed.

(** X7.  A response with a 2xx status whose text is not JSON: the rejection of
    [response.json()] is caught, its message becomes the last error, and
    nothing else but the loading flag changes. *)
Theorem undecodable_response_recorded (response : Response)
    (message : string) (now : Z) (s : State) :
  ok response = true ->
  json response = Throw message ->
  fetchData (Normal response) now s =
  (Normal tt,
   {| data := data s; loading := false; error := Some message;
      lastUpdate := lastUpdate s; darkMode := darkMode s;
      showAlert := showAlert s; alertMessage := alertMessage s |}).
Proof.
  intros Hok Hjson.
  unfold fetchData, try_catch_finally, bind, await.
  now rewrite Hok, Hjson.
Qed.

Lemma undecodable_response_recorded_witness :
  error (refresh
           (Normal {| status := 200; json := Throw "Unexpected token <" |})
           5000 stale)
    = Some "Unexpected token <".
Proof.
  unfold refresh.
  rewrite (undecodable_response_recorded
             {| status := 200; json := Throw "Unexpected token <" |}
             "Unexpected token <" 5000 stale eq_refl eq_refl).
  reflexivity.
Defined.

(** ** Cycles that deliver a sequence *)

(** The whole state after a cycle that delivers a sequence. *)
Lemma refresh_delivered (f : Completion Response) (rs : list Reading)
    (now : Z) (s : State) :
  delivered f = Some rs ->
  refresh f now s =
  match Array_sort by_timestamp_desc rs with
  | [] =>
      {| data := []; loading := false; error := None; lastUpdate := Some now;
         darkMode := darkMode s; showAlert := showAlert s;
         alertMessage := alertMessage s |}
  | latest :: rest =>
      {| data := latest :: rest; loading := false; error := None;
         lastUpdate := Some now; darkMode := darkMode s;
         showAlert := (0 <? List.length (alerts_of latest))%nat;
         alertMessage :=
           if (0 <? List.length (alerts_of latest))%nat
           then join " | " (alerts_of latest) else alertMessage s |}
  end.
Proof.
  intros H. unfold refresh. rewrite (fetchData_delivers f rs now s H).
  unfold ingest, bind, setData, setLastUpdate, setError, setLoading.
  cbn [fst snd data loading error lastUpdate darkMode showAlert alertMessage].
  destruct (Array_sort by_timestamp_desc rs) as [|latest rest];
    [reflexivity|].
  unfold hd_error, checkAlerts.
  destruct (0 <? List.length (alerts_of latest))%nat; reflexivity.
Qed.

(** The first element of a list sorted greatest first is a greatest one. *)
Lemma descending_head {A : Type} (key : A -> Z) (x : A) (l : list A) :
  descending key (x :: l) -> forall y, In y (x :: l) -> key y <= key x.
Proof.
  intros Hsorted y [<- | Hy]; [lia|].
  apply StronglySorted_inv in Hsorted as [_ Hall].
  rewrite Forall_forall in Hall. now apply Hall.
Qed.

(** X8.  After a cycle that delivers a non-empty sequence, the alert banner is
    decided by one reading alone, whatever was shown or dismissed before:
    the first of the working set, which is one of the delivered readings
    and no older than any of them.  The banner is up exactly when that
    reading raises an alert, and then carries its alerts, joined. *)
Theorem newest_reading_decides_banner (f : Completion Response)
    (rs : list Reading) (now : Z) (s : State) :
  delivers f rs ->
  rs <> [] ->
  exists latest : Reading,
    hd_error (data (refresh f now s)) = Some latest /\
    In latest rs /\
    (forall r, In r rs -> timestamp r <= timestamp latest) /\
    (showAlert (refresh f now s) = true <-> alerts_of latest <> []) /\
    (alerts_of latest <> [] ->
     alertMessage (refresh f now s) = join " | " (alerts_of latest)) /\
    (alerts_of latest = [] ->
     alertMessage (refresh f now s) = alertMessage s).
Proof.
  intros Hf Hne. apply delivers_delivered in Hf.
  rewrite (refresh_delivered f rs now s Hf).
  pose proof (sort_perm timestamp rs) as Hperm.
  pose proof (sort_descending timestamp rs) as Hsorted.
  fold by_timestamp_desc in Hperm, Hsorted.
  destruct (Array_sort by_timestamp_desc rs) as [|latest rest].
  - apply Permutation_sym, Permutation_nil in Hperm. congruence.
  - exists latest. cbn [data showAlert alertMessage hd_error].
    split; [reflexivity|].
    split; [apply (Permutation_in _ (Permutation_sym Hperm)); now left|].
    split.
    { intros r Hr. apply (descending_head timestamp latest rest Hsorted).
      now apply (Permutation_in _ Hperm). }
    destruct (alerts_of latest) as [|a l]; cbn; repeat split;
      intros; congruence.
Qed.

Lemma newest_reading_decides_banner_witness :
  exists latest : Reading,
    hd_error (data (refresh (respond (JArray [older; soil_null])) 5000 stale))
      = Some latest /\
    In latest [older; soil_null] /\
    alertMessage (refresh (respond (JArray [older; soil_null])) 5000 stale)
      = soil_low.
Proof.
  destruct (newest_reading_decides_banner
              (respond (JArray [older; soil_null])) [older; soil_null]
              5000 stale) as (latest & Hhd & Hin & _ & _ & Hmsg & _).
  - apply top_level_sequence; reflexivity.
  - discriminate.
  - exists latest. split; [exact Hhd|]. split; [exact Hin|].
    cbn in Hhd. injection Hhd as <-. reflexivity.
Defined.

(** A list already sorted greatest first is left as it is by the sort. *)
Lemma sort_descending_id {A : Type} (key : A -> Z) (l : list A) :
  descending key l -> Array_sort (descending_by key) l = l.
Proof.
  induction 1 as [|x l Hl IH Hx]; [reflexivity|].
  cbn [Array_sort fold_right].
  change (fold_right (insert (descending_by key)) [] l)
    with (Array_sort (descending_by key) l).
  rewrite IH. destruct l as [|y rest]; [reflexivity|].
  cbn [insert]. apply Forall_inv in Hx.
  unfold descending_by.
  destruct (0 <? key y - key x) eqn:E; [|reflexivity].
  apply Z.ltb_lt in E. lia.
Qed.

(** X9.  A sequence that arrives newest first becomes the working set exactly
    as delivered: the sort moves nothing, readings of one timestamp
    included. *)
Theorem sorted_payload_kept_as_is (f : Completion Response)
    (rs : list Reading) (now : Z) (s : State) :
  delivers f rs ->
  descending timestamp rs ->
  data (refresh f now s) = rs.
Proof.
  intros Hf Hsorted. apply delivers_delivered in Hf.
  rewrite refresh_data, Hf. now apply sort_descending_id.
Qed.

Lemma sorted_payload_kept_as_is_witness :
  data (refresh (respond (JArray [newer; same_time; older])) 5000 initial)
    = [newer; same_time; older].
Proof.
  apply (sorted_payload_kept_as_is
           (respond (JArray [newer; same_time; older]))
           [newer; same_time; older] 5000 initial).
  - apply top_level_sequence; reflexivity.
  - repeat constructor; cbn; lia.
Defined.

(** ** What is on the screen *)

Lemma refresh_fails_with (f : Completion Response) (message : string)
    (now : Z) (s : State) :
  fails_with f message ->
  refresh f now s =
  {| data := data s; loading := false; error := Some message;
     lastUpdate := lastUpdate s; darkMode := darkMode s;
     showAlert := showAlert s; alertMessage := alertMessage s |}.
Proof.
  intros [m | response Hok];
    unfold refresh, fetchData, try_catch_finally, bind, await;
    [reflexivity | now rewrite Hok].
Qed.

(** X10.  After a failed cycle with a message, the error screen replaces
    whatever was shown: the working set is kept in the state, but the
    dashboard that would show it is not rendered. *)
Theorem failure_hides_dashboard (f : Completion Response) (message : string)
    (now : Z) (s : State) :
  fails_with f message ->
  message <> EmptyString ->
  render (refresh f now s) = ErrorScreen message /\
  data (refresh f now s) = data s.
Proof.
  intros Hf Hmessage. rewrite (refresh_fails_with f message now s Hf).
  unfold render, truthy. cbn [loading error data].
  destruct (String.eqb_spec message EmptyString); [congruence|].
  split; reflexivity.
Qed.

Lemma failure_hides_dashboard_witness :
  render (refresh (Throw "Failed to fetch") 5000
            (refresh (respond (JArray [newer])) 1000 initial))
    = ErrorScreen "Failed to fetch" /\
  data (refresh (Throw "Failed to fetch") 5000
          (refresh (respond (JArray [newer])) 1000 initial))
    = [newer].
Proof.
  destruct (failure_hides_dashboard (Throw "Failed to fetch")
              "Failed to fetch" 5000
              (refresh (respond (JArray [newer])) 1000 initial)
              (transport_failure "Failed to fetch")) as [Hscreen Hdata].
  - discriminate.
  - split; [exact Hscreen | exact Hdata].
Defined.

(** X11.  After a cycle that delivers a sequence, whatever the state before
    (loading, an error on display), the component renders the dashboard
    on the newest reading, or the no-data screen when the sequence is
    empty. *)
Theorem delivery_shows_dashboard (f : Completion Response)
    (rs : list Reading) (now : Z) (s : State) :
  delivers f rs ->
  render (refresh f now s) =
  match Array_sort by_timestamp_desc rs with
  | [] => NoDataScreen
  | latest :: _ => Dashboard (Some latest)
  end.
Proof.
  intros Hf. apply delivers_delivered in Hf.
  rewrite (refresh_delivered f rs now s Hf).
  now destruct (Array_sort by_timestamp_desc rs).
Qed.

Lemma delivery_shows_dashboard_witness :
  render (refresh (respond (JArray [older; newer])) 5000 stale)
    = Dashboard (Some newer).
Proof.
  apply (delivery_shows_dashboard (respond (JArray [older; newer]))
           [older; newer] 5000 stale).
  apply top_level_sequence; reflexivity.
Defined.

(** The dashboard is rendered only with a reading to show: [latestReading]
    is never [undefined] there, and the state is neither loading nor
    showing an error. *)
Lemma dashboard_has_latest_reading (s : State)
    (latestReading : option Reading) :
  render s = Dashboard latestReading ->
  exists d rest,
    latestReading = Some d /\ data s = d :: rest /\
    loading s = false /\ truthy (error s) = false.
Proof.
  unfold render.
  destruct (loading s); [discriminate|].
  destruct (truthy (error s)); [discriminate|].
  destruct (data s) as [|d rest]; [discriminate|].
  cbn. intros [= <-]. now exists d, rest.
Qed.

(** ** Invariants of the state *)

Lemma after_app (s : State) (l1 l2 : list Event) :
  after s (l1 ++ l2) = after (after s l1) l2.
Proof. apply fold_left_app. Qed.

Lemma handle_fetch_loading (f : Completion Response) (now : Z) (s : State) :
  loading (refresh f now s) = false /\
  darkMode (refresh f now s) = darkMode s.
Proof.
  destruct (delivered f) as [rs|] eqn:E.
  - rewrite (refresh_delivered f rs now s E).
    now destruct (Array_sort by_timestamp_desc rs).
  - destruct (refresh_undelivered f now s E) as (e & _ & ->). now split.
Qed.

(** X12.  Whatever happens (cycles that succeed or fail, in any order, clicks in
    between), the working set stays sorted by timestamp, newest first. *)
Theorem working_set_stays_sorted (s : State) (events : list Event) :
  descending timestamp (data s) ->
  descending timestamp (data (after s events)).
Proof.
  revert s. induction events as [|e events IH]; intros s Hs; [exact Hs|].
  cbn [after fold_left]. apply IH.
  destruct e as [f now| |]; cbn; try exact Hs.
  change (snd (fetchData f now s)) with (refresh f now s).
  rewrite refresh_data. destruct (delivered f); [|exact Hs].
  apply sort_descending.
Qed.

Lemma working_set_stays_sorted_witness :
  descending timestamp
    (data (after initial
             [FetchCompleted (respond (JArray unsorted)) 1000;
              AlertDismissed;
              FetchCompleted (Throw "Failed to fetch") 6000])).
Proof.
  apply (working_set_stays_sorted initial). constructor.
Defined.

(** X13.  The loading screen is shown until the first cycle completes and never
    again: the state is loading after some events exactly when it was
    before them and no cycle has completed among them. *)
Theorem loading_ends_with_first_cycle (s : State) (events : list Event) :
  loading (after s events) =
  loading s
  && forallb (fun e => match e with
                       | FetchCompleted _ _ => false
                       | _ => true
                       end) events.
Proof.
  revert s. induction events as [|e events IH]; intros s.
  - cbn. now rewrite andb_true_r.
  - cbn [after fold_left forallb]. fold (after (handle s e) events).
    rewrite IH. destruct e as [f now| |]; cbn [handle].
    + change (snd (fetchData f now s)) with (refresh f now s).
      rewrite (proj1 (handle_fetch_loading f now s)).
      cbn. now rewrite andb_false_r.
    + reflexivity.
    + reflexivity.
Qed.

Lemma concat_not_empty (sep : string) (l : list string) :
  l <> [] ->
  Forall (fun a => a <> EmptyString) l ->
  concat sep l <> EmptyString.
Proof.
  intros Hne Hall. destruct Hall as [|a rest Ha _]; [congruence|].
  destruct a as [|c a]; [congruence|].
  destruct rest; discriminate.
Qed.

Lemma alerts_joined_not_empty (r : Reading) :
  alerts_of r <> [] -> join " | " (alerts_of r) <> EmptyString.
Proof.
  intros Hne. apply concat_not_empty; [exact Hne|].
  apply Forall_forall. intros a Ha. apply alerts_of_In in Ha.
  destruct Ha as [[-> _]|[[-> _]|[[-> _]|[-> _]]]]; discriminate.
Qed.

(** X14.  Whatever happens, an alert banner on display has a text: the banner is
    raised only together with the joined alerts of a reading that has
    some, and every other event leaves the text alone or takes the banner
    down. *)
Theorem banner_never_blank (s : State) (events : list Event) :
  banner_has_text s -> banner_has_text (after s events).
Proof.
  revert s. induction events as [|e events IH]; intros s Hs; [exact Hs|].
  cbn [after fold_left]. apply IH. unfold banner_has_text in *.
  destruct e as [f now| |]; cbn; try exact Hs; try discriminate.
  change (snd (fetchData f now s)) with (refresh f now s).
  destruct (delivered f) as [rs|] eqn:E.
  - rewrite (refresh_delivered f rs now s E).
    destruct (Array_sort by_timestamp_desc rs) as [|latest rest];
      [exact Hs|].
    cbn [showAlert alertMessage].
    destruct (0 <? List.length (alerts_of latest))%nat eqn:El;
      [|discriminate].
    intros _. apply alerts_joined_not_empty.
    intros Hnone. rewrite Hnone in El. discriminate El.
  - destruct (refresh_undelivered f now s E) as (e & _ & ->). exact Hs.
Qed.

Lemma banner_never_blank_witness :
  banner_has_text
    (after initial
       [FetchCompleted (respond (JArray [soil_null])) 1000;
        AlertDismissed;
        FetchCompleted (respond (JArray [soil_null; older])) 6000]).
Proof.
  apply (banner_never_blank initial). intros H. discriminate H.
Defined.

(** X15.  Whatever happens, a working set with readings in it has an update
    time: the two are written together and never apart, so the dashboard
    always has its "Last update" line. *)
Theorem readings_come_with_update_time (s : State) (events : list Event) :
  (data s <> [] -> lastUpdate s <> None) ->
  data (after s events) <> [] -> lastUpdate (after s events) <> None.
Proof.
  revert s. induction events as [|e events IH]; intros s Hs; [exact Hs|].
  cbn [after fold_left]. apply IH.
  destruct e as [f now| |]; cbn; try exact Hs.
  change (snd (fetchData f now s)) with (refresh f now s).
  destruct (delivered f) as [rs|] eqn:E.
  - rewrite (refresh_delivered f rs now s E).
    destruct (Array_sort by_timestamp_desc rs); cbn; discriminate.
  - destruct (refresh_undelivered f now s E) as (e & _ & ->). exact Hs.
Qed.

Lemma readings_come_with_update_time_witness :
  lastUpdate
    (after initial
       [FetchCompleted (respond (JArray [older])) 1000; DarkModeClicked;
        FetchCompleted (Throw "Failed to fetch") 6000])
  <> None.
Proof.
  apply (readings_come_with_update_time initial).
  - intros H. now contradiction H.
  - discriminate.
Defined.

(** ** The chart and the table *)

Lemma descending_firstn {A : Type} (key : A -> Z) (n : nat) (l : list A) :
  descending key l -> descending key (firstn n l).
Proof.
  intros H. revert n. induction H as [|x l Hl IH Hx]; intros [|n]; cbn;
    try constructor; [apply IH|].
  rewrite Forall_forall in *. intros y Hy. apply Hx.
  rewrite <- (firstn_skipn n l). apply in_or_app. now left.
Qed.

(** In a list sorted greatest first, what comes first is no less than
    what comes after. *)
Lemma descending_app {A : Type} (key : A -> Z) (l1 l2 : list A) :
  descending key (l1 ++ l2) ->
  forall a b, In a l1 -> In b l2 -> key b <= key a.
Proof.
  induction l1 as [|x l1 IH]; intros H a b Ha Hb; [contradiction|].
  cbn in H. apply StronglySorted_inv in H as [Hl Hx].
  destruct Ha as [<- | Ha]; [|now apply IH].
  rewrite Forall_forall in Hx. apply Hx, in_or_app. now right.
Qed.

Lemma descending_rev {A : Type} (key : A -> Z) (l : list A) :
  descending key l -> ascending key (rev l).
Proof.
  unfold ascending.
  induction 1 as [|x l Hl IH Hx]; cbn; [constructor|].
  assert (Hlast : forall l', StronglySorted (fun a b => key a <= key b) l' ->
                   Forall (fun a => key a <= key x) l' ->
                   StronglySorted (fun a b => key a <= key b) (l' ++ [x])).
  { induction 1 as [|y l' Hl' IH' Hy]; intros Hall; cbn.
    - repeat constructor.
    - constructor; [apply IH'; now inversion Hall|].
      apply Forall_app. split; [exact Hy|].
      constructor; [now inversion Hall | constructor]. }
  apply Hlast; [exact IH|].
  apply Forall_rev. exact Hx.
Qed.

(** X16.  The chart shows the twenty newest readings of a sorted working set
    (all of them when there are fewer), oldest first: its points are those
    of a list in ascending time that rearranges the first twenty, nothing
    left out is newer than anything shown, and the last point is the
    newest reading. *)
Theorem chart_newest_twenty_oldest_first (toLocaleTimeString : Z -> string)
    (readings : list Reading) :
  descending timestamp readings ->
  List.length (getChartData toLocaleTimeString readings)
    = Nat.min 20 (List.length readings) /\
  (exists shown : list Reading,
     getChartData toLocaleTimeString readings
       = map (chartPoint toLocaleTimeString) shown /\
     Permutation shown (firstn 20 readings) /\
     ascending timestamp shown /\
     forall a b, In a shown -> In b (skipn 20 readings) ->
                 timestamp b <= timestamp a) /\
  (forall latest rest,
     readings = latest :: rest ->
     last (getChartData toLocaleTimeString readings)
          (chartPoint toLocaleTimeString latest)
     = chartPoint toLocaleTimeString latest).
Proof.
  intros Hsorted. unfold getChartData. split; [|split].
  - now rewrite length_map, length_rev, length_firstn.
  - exists (rev (firstn 20 readings)). split; [reflexivity|].
    split; [apply Permutation_sym, Permutation_rev|].
    split; [apply descending_rev, descending_firstn, Hsorted|].
    intros a b Ha Hb. apply in_rev in Ha.
    apply (descending_app timestamp (firstn 20 readings) (skipn 20 readings));
      [now rewrite firstn_skipn | exact Ha | exact Hb].
  - intros latest rest ->.
    change (firstn 20 (latest :: rest)) with (latest :: firstn 19 rest).
    cbn [rev]. rewrite map_app. cbn [map]. apply last_last.
Qed.

Lemma chart_newest_twenty_oldest_first_witness :
  List.length (getChartData sample_toLocaleString [newer; same_time; older])
    = 3%nat.
Proof.
  destruct (chart_newest_twenty_oldest_first sample_toLocaleString
              [newer; same_time; older]) as [Hlength _].
  - repeat constructor; cbn; lia.
  - exact Hlength.
Defined.

(** X17.  The table shows the ten newest readings of a sorted working set (all
    of them when there are fewer), newest first, starting with the
    reading of the cards; nothing left out is newer than a row shown. *)
Theorem table_newest_ten (readings : list Reading) :
  descending timestamp readings ->
  List.length (table_rows readings) = Nat.min 10 (List.length readings) /\
  descending timestamp (table_rows readings) /\
  hd_error (table_rows readings) = hd_error readings /\
  forall a b, In a (table_rows readings) -> In b (skipn 10 readings) ->
              timestamp b <= timestamp a.
Proof.
  intros Hsorted. unfold table_rows.
  split; [apply length_firstn|].
  split; [now apply descending_firstn|].
  split; [now destruct readings|].
  apply (descending_app timestamp). now rewrite firstn_skipn.
Qed.

Lemma table_newest_ten_witness :
  List.length (table_rows [newer; same_time; older]) = 3%nat /\
  hd_error (table_rows [newer; same_time; older]) = Some newer.
Proof.
  destruct (table_newest_ten [newer; same_time; older])
    as (Hlength & _ & Hhd & _).
  - repeat constructor; cbn; lia.
  - split; [exact Hlength | exact Hhd].
Defined.

(** ** The exported file *)

(** X18.  The file is named after the date part of the ISO time of the click,
    the text before its [T], and typed as CSV; exporting changes nothing
    in the state. *)
Theorem export_named_by_date (toLocaleString : Z -> string)
    (date rest : string) (s : State) :
  free_of "T" date = true ->
  data s <> [] ->
  exists file : Download,
    exportToCSV toLocaleString (date ++ String "T" rest) s
      = (Normal (Some file), s) /\
    download file = "plant-data-" ++ date ++ ".csv" /\
    type file = "text/csv" /\
    content file = csvContent toLocaleString (data s).
Proof.
  intros Hdate Hne. unfold exportToCSV.
  destruct (data s) as [|d l] eqn:Hdata; [congruence|].
  cbn [List.length Nat.eqb]. eexists. split; [reflexivity|].
  cbn [download type content].
  rewrite split_app_sep, (split_free _ _ Hdate). repeat split.
Qed.

Lemma export_named_by_date_witness :
  exists file : Download,
    exportToCSV sample_toLocaleString clock
      (refresh (respond (JArray [newer])) 5000 initial)
      = (Normal (Some file), refresh (respond (JArray [newer])) 5000 initial) /\
    download file = "plant-data-2024-05-06.csv".
Proof.
  destruct (export_named_by_date sample_toLocaleString "2024-05-06"
              "10:00:00.000Z"
              (refresh (respond (JArray [newer])) 5000 initial))
    as (file & Hfile & Hname & _).
  - reflexivity.
  - discriminate.
  - exists file. split; [exact Hfile | exact Hname].
Defined.

(** ** The statistics *)

(** X19.  A reading that lacks the field counts for nothing in the statistics
    of the field, wherever it stands, as long as other readings remain:
    it is left out, not counted as zero. *)
Theorem calculateStats_skips_absent (before rest : list Reading)
    (d : Reading) (field : Field) :
  is_present (get d field) = false ->
  (before ++ rest)%list <> [] ->
  calculateStats (before ++ d :: rest) field
  = calculateStats (before ++ rest) field.
Proof.
  intros Habsent Hne. unfold calculateStats.
  destruct (before ++ rest)%list as [|x l] eqn:E; [congruence|].
  destruct (before ++ d :: rest)%list as [|x' l'] eqn:E';
    [now destruct before|].
  cbn [List.length Nat.eqb]. rewrite <- E, <- E'.
  rewrite !map_app, !filter_app. cbn [map filter]. now rewrite Habsent.
Qed.

Lemma calculateStats_skips_absent_witness :
  calculateStats [older; no_temperature; newer] F_temperature
  = calculateStats [older; newer] F_temperature.
Proof.
  apply (calculateStats_skips_absent [older] [newer] no_temperature
           F_temperature).
  - reflexivity.
  - discriminate.
Defined.

(** A number that is not below [Infinity] is [Infinity] or NaN. *)
Lemma not_below_infinity (x : float) :
  is_nan x = false -> (x <? infinity)%float = false -> x = infinity.
Proof.
  unfold is_nan. rewrite FloatAxioms.eqb_spec, FloatAxioms.ltb_spec.
  destruct (Prim2SF x) as [s|[|]| |s m e] eqn:E; cbn; try discriminate;
    try (destruct s; discriminate).
  intros _ _. now rewrite <- (SF2Prim_Prim2SF x), E.
Qed.

Lemma not_above_neg_infinity (x : float) :
  is_nan x = false -> (neg_infinity <? x)%float = false -> x = neg_infinity.
Proof.
  unfold is_nan. rewrite FloatAxioms.eqb_spec, FloatAxioms.ltb_spec.
  destruct (Prim2SF x) as [s|[|]| |s m e] eqn:E; cbn; try discriminate;
    try (destruct s; discriminate).
  intros _ _. now rewrite <- (SF2Prim_Prim2SF x), E.
Qed.

Lemma min_from_In (lowest : float) (args : list float) :
  Forall (fun x => is_nan x = false) args ->
  In (min_from lowest args) (lowest :: args).
Proof.
  intros Hall. revert lowest.
  induction Hall as [|x rest Hx _ IH]; intros lowest; [now left|].
  cbn [min_from]. rewrite Hx.
  destruct (is_neg_zero x && is_pos_zero lowest);
    [|destruct (x <? lowest)%float];
    match goal with
    | |- In (min_from ?l rest) _ => destruct (IH l) as [<- | H]
    end; cbn; auto.
Qed.

Lemma max_from_In (highest : float) (args : list float) :
  Forall (fun x => is_nan x = false) args ->
  In (max_from highest args) (highest :: args).
Proof.
  intros Hall. revert highest.
  induction Hall as [|x rest Hx _ IH]; intros highest; [now left|].
  cbn [max_from]. rewrite Hx.
  destruct (is_pos_zero x && is_neg_zero highest);
    [|destruct (highest <? x)%float];
    match goal with
    | |- In (max_from ?l rest) _ => destruct (IH l) as [<- | H]
    end; cbn; auto.
Qed.

Lemma Math_min_In (args : list float) :
  args <> [] ->
  Forall (fun x => is_nan x = false) args ->
  In (Math_min args) args.
Proof.
  intros Hne Hall. destruct Hall as [|x rest Hx Hrest]; [congruence|].
  unfold Math_min. cbn [min_from]. rewrite Hx.
  change (is_pos_zero infinity) with false. rewrite andb_false_r.
  destruct (x <? infinity)%float eqn:E.
  - apply (min_from_In x rest Hrest).
  - rewrite <- (not_below_infinity x Hx E).
    apply (min_from_In x rest Hrest).
Qed.

Lemma Math_max_In (args : list float) :
  args <> [] ->
  Forall (fun x => is_nan x = false) args ->
  In (Math_max args) args.
Proof.
  intros Hne Hall. destruct Hall as [|x rest Hx Hrest]; [congruence|].
  unfold Math_max. cbn [max_from]. rewrite Hx.
  change (is_neg_zero neg_infinity) with false. rewrite andb_false_r.
  destruct (neg_infinity <? x)%float eqn:E.
  - apply (max_from_In x rest Hrest).
  - rewrite <- (not_above_neg_infinity x Hx E).
    apply (max_from_In x rest Hrest).
Qed.

(** X20.  When at least one reading has the field, and no value of it is NaN,
    the minimum and the maximum shown are values that readings of the
    working set do have, printed with one decimal: the statistics never
    show a bound that no sensor reported. *)
Theorem stats_bounds_are_readings (readings : list Reading) (field : Field) :
  Exists (fun d => is_present (get d field) = true) readings ->
  (forall d x, In d readings -> get d field = Num x -> is_nan x = false) ->
  exists dmin dmax : Reading,
    In dmin readings /\ In dmax readings /\
    (exists lo, get dmin field = Num lo /\
       min (calculateStats readings field) = VString (toFixed1 lo)) /\
    (exists hi, get dmax field = Num hi /\
       max (calculateStats readings field) = VString (toFixed1 hi)).
Proof.
  intros Hsome Hnan.
  set (values := filter is_present (map (fun d => get d field) readings)).
  assert (Hne : map ToNumber values <> []).
  { apply Exists_exists in Hsome as (d & Hd & Hp).
    assert (Hin : In (get d field) values).
    { apply filter_In. split; [|exact Hp].
      apply in_map_iff. now exists d. }
    destruct values; [contradiction | discriminate]. }
  assert (Hall : Forall (fun x => is_nan x = false) (map ToNumber values)).
  { apply Forall_forall. intros x Hx.
    apply in_map_iff in Hx as (v & <- & Hv).
    apply filter_In in Hv as [Hv Hp].
    apply in_map_iff in Hv as (d & <- & Hd).
    destruct (get d field) as [| |y] eqn:Ey; try discriminate.
    apply (Hnan d y Hd Ey). }
  assert (Hback : forall x, In x (map ToNumber values) ->
                   exists d, In d readings /\ get d field = Num x).
  { intros x Hx. apply in_map_iff in Hx as (v & <- & Hv).
    apply filter_In in Hv as [Hv Hp].
    apply in_map_iff in Hv as (d & <- & Hd).
    exists d. split; [exact Hd|]. now destruct (get d field). }
  destruct (Hback _ (Math_min_In _ Hne Hall)) as (dmin & Hdmin & Hlo).
  destruct (Hback _ (Math_max_In _ Hne Hall)) as (dmax & Hdmax & Hhi).
  exists dmin, dmax. split; [exact Hdmin|]. split; [exact Hdmax|].
  unfold calculateStats. fold values.
  destruct readings as [|d l]; [inversion Hsome|]. cbn [List.length Nat.eqb].
  cbn [min max]. split; eexists; split; eauto.
Qed.

Lemma stats_bounds_are_readings_witness :
  exists dmin dmax : Reading,
    In dmin [older; no_temperature; newer] /\
    In dmax [older; no_temperature; newer] /\
    (exists lo, get dmin F_temperature = Num lo /\
       min (calculateStats [older; no_temperature; newer] F_temperature)
       = VString (toFixed1 lo)) /\
    (exists hi, get dmax F_temperature = Num hi /\
       max (calculateStats [older; no_temperature; newer] F_temperature)
       = VString (toFixed1 hi)).
Proof.
  apply (stats_bounds_are_readings [older; no_temperature; newer]
           F_temperature).
  - apply Exists_cons_hd. reflexivity.
  - intros d x [<- | [<- | [<- | []]]]; cbn; intros [= <-]; reflexivity.
Defined.

(** ** Cells of a row *)

Lemma split_one_piece (c : ascii) (s : string) :
  List.length (split c s) = 1%nat -> free_of c s = true.
Proof.
  induction s as [|a rest IH]; [reflexivity|]. cbn [split free_of].
  destruct (Ascii.eqb a c).
  - pose proof (split_not_nil c rest). cbn.
    destruct (split c rest); [congruence | discriminate].
  - pose proof (split_not_nil c rest) as Hne.
    destruct (split c rest) as [|piece pieces]; [congruence|].
    cbn in *. intros H. now rewrite IH.
Qed.

(** X21.  Nothing is quoted in the export: a row has as many cells as the
    header has columns exactly when the rendered date holds no comma, and
    otherwise one more for each comma of the date. *)
Theorem row_cells_match_header (toLocaleString : Z -> string) (d : Reading) :
  clean_id d ->
  List.length (split comma (row toLocaleString d))
    = (List.length (split comma (toLocaleString (timestamp d))) + 5)%nat /\
  (List.length (split comma (row toLocaleString d)) = List.length headers <->
   free_of comma (toLocaleString (timestamp d)) = true).
Proof.
  intros Hid. rewrite (row_split toLocaleString d Hid), length_app.
  split; [reflexivity|]. cbn [List.length cells headers]. split.
  - intros H. apply split_one_piece. lia.
  - intros H. now rewrite (split_free comma _ H).
Qed.

Lemma row_cells_match_header_witness :
  List.length (split comma (row sample_toLocaleString newer)) = 7%nat.
Proof.
  destruct (row_cells_match_header sample_toLocaleString newer) as [H _].
  - reflexivity.
  - rewrite H. reflexivity.
Defined.

Lemma missing_measurement_shown_as_good_witness :
  temperature_line (Some no_temperature) = "Optimal" /\
  color_band (getStatusColor true Undefined soil_thresholds) = Some Green.
Proof.
  destruct (missing_measurement_shown_as_good true soil_thresholds
              (Some no_temperature)) as (Hcolor & _ & _ & Hline & _).
  split; [apply Hline; reflexivity | exact Hcolor].
Defined.
